(** * CodeScan-AI: the review pipeline of [.scanner/scan_and_review.py]

    A shallow embedding of the script: Python values as an inductive type,
    the built-ins the script uses as total functions that return the
    exception Python raises, everything outside the script (environment,
    files, [git], the two HTTP services) as a [world] of oracles, and the
    functions that print or post as computations in a small state-and-error
    monad whose state holds the run's trace. *)

From Stdlib Require Import ZArith String Ascii List Bool DecimalString Lia.
Import ListNotations.

Open Scope string_scope.
Open Scope Z_scope.

(** ** Python values *)

(** What [json.load] and [response.json()] produce, and what the script
    passes around. JSON numbers are integers here, as line numbers are in
    the scanner's schema; a [dict] keeps its entries in insertion order and
    is looked up by its first matching key. Strings are UTF-8 byte
    sequences. *)
#[warnings="-register-all"]
Inductive value : Type :=
| VNone
| VBool (b : bool)
| VInt (n : Z)
| VStr (s : string)
| VList (items : list value)
| VDict (entries : list (string * value)).

(** [requests.Response]: [body] is what [response.json()] finds, the decoded
    document or the message of the [requests.JSONDecodeError] it raises. *)
Inductive json_body : Type :=
| JsonDocument (v : value)
| JsonInvalid (msg : string).

Record response : Type := mkResponse {
  status_code : Z;
  reason : string;
  url : string;
  text : string;
  body : json_body }.

(** Exceptions, by the classes the script's [except] clauses tell apart.
    [CalledProcessError] and [RequestException] carry [str(e)], which the
    script prints; [RequestException] stands for the whole class (connection
    errors, timeouts, [HTTPError], [requests.JSONDecodeError]) and carries
    [e.response]. [OtherError] is any other class an external call raises
    ([PermissionError], [IsADirectoryError], [UnicodeDecodeError], ...). *)
Inductive exn : Type :=
| FileNotFoundError
| JSONDecodeError
| CalledProcessError (msg : string)
| RequestException (msg : string) (resp : option response)
| KeyError (key : value)
| IndexError
| TypeError
| AttributeError
| OtherError (name : string).

Inductive result (A : Type) : Type :=
| Ok (a : A)
| Raise (e : exn).
Arguments Ok {A} a.
Arguments Raise {A} e.

(** ** The world outside the script *)

(** What [requests.post] does: it returns a response, or raises a
    [RequestException] (connection error, timeout, ...). *)
Inductive post_outcome : Type :=
| Responded (r : response)
| RequestFailed (msg : string) (resp : option response).

Record world : Type := mkWorld {
  (** [os.environ.get] *)
  environ : string -> option string;
  (** [subprocess.run(cmd, capture_output=True, text=True, check=True).stdout]:
      the output of a command that exits with status 0, [CalledProcessError]
      for another status *)
  subprocess_run : list string -> result string;
  (** [open(path, 'r')] followed by [readlines()] *)
  open_readlines : string -> result (list string);
  (** the same on an integer file descriptor *)
  fdopen_readlines : Z -> result (list string);
  (** [open(path, 'r')] followed by [json.load] *)
  open_json_load : string -> result value;
  (** the outcome of the run's n-th [requests.post] (from 0) *)
  requests_post : nat -> post_outcome;
  (** [repr] of a list or a dict *)
  py_repr : value -> string }.

(** ** Built-ins *)

Definition nl : string := String (ascii_of_nat 10) EmptyString.

(** [str] of an [int] *)
Definition str_of_int (n : Z) : string := NilZero.string_of_int (Z.to_int n).

Definition int_of_bool (b : bool) : Z := if b then 1 else 0.

(** [bool(v)] *)
Definition truthy (v : value) : bool :=
  match v with
  | VNone => false
  | VBool b => b
  | VInt n => negb (n =? 0)
  | VStr s => negb (s =? "")%string
  | VList items => match items with [] => false | _ :: _ => true end
  | VDict entries => match entries with [] => false | _ :: _ => true end
  end.

(** [str(v)], which is what an f-string field [{v}] inserts *)
Definition py_str (w : world) (v : value) : string :=
  match v with
  | VNone => "None"
  | VBool true => "True"
  | VBool false => "False"
  | VInt n => str_of_int n
  | VStr s => s
  | VList _ | VDict _ => py_repr w v
  end.

(** A byte that continues a UTF-8 sequence: [10xxxxxx]. *)
Definition is_continuation (c : ascii) : bool :=
  match c with Ascii _ _ _ _ _ _ b6 b7 => b7 && negb b6 end.

Definition starts_with_continuation (s : string) : bool :=
  match s with
  | String c _ => is_continuation c
  | EmptyString => false
  end.

(** The code points of a string, each as the string of its bytes. *)
Fixpoint code_points (s : string) : list string :=
  match s with
  | EmptyString => []
  | String c rest =>
      if starts_with_continuation rest then
        match code_points rest with
        | p :: ps => String c p :: ps
        | [] => [String c EmptyString]
        end
      else String c EmptyString :: code_points rest
  end.

Fixpoint lookup (k : string) (entries : list (string * value)) : option value :=
  match entries with
  | [] => None
  | (k', v) :: rest => if (k =? k')%string then Some v else lookup k rest
  end.

(** [len(v)] *)
Definition py_len (v : value) : result Z :=
  match v with
  | VList items => Ok (Z.of_nat (List.length items))
  | VStr s => Ok (Z.of_nat (List.length (code_points s)))
  | VDict entries => Ok (Z.of_nat (List.length entries))
  | VNone | VBool _ | VInt _ => Raise TypeError
  end.

(** [v.get(k, default)]: only a dict has the method *)
Definition dict_get (v : value) (k : string) (default : value) : result value :=
  match v with
  | VDict entries =>
      match lookup k entries with
      | Some x => Ok x
      | None => Ok default
      end
  | _ => Raise AttributeError
  end.

(** [v[k]] for a string key *)
Definition getitem (v : value) (k : string) : result value :=
  match v with
  | VDict entries =>
      match lookup k entries with
      | Some x => Ok x
      | None => Raise (KeyError (VStr k))
      end
  | _ => Raise TypeError
  end.

(** [seq[i]] on a sequence of [n] items: a negative index counts from the end *)
Definition index_at {A : Type} (items : list A) (i : Z) : option A :=
  let n := Z.of_nat (List.length items) in
  let j := if i <? 0 then i + n else i in
  if (0 <=? j) && (j <? n) then nth_error items (Z.to_nat j) else None.

(** [v[i]] for an integer index; the keys of a decoded JSON object are
    strings, so the index is never among them *)
Definition getitem_int (v : value) (i : Z) : result value :=
  match v with
  | VList items =>
      match index_at items i with
      | Some x => Ok x
      | None => Raise IndexError
      end
  | VStr s =>
      match index_at (code_points s) i with
      | Some c => Ok (VStr c)
      | None => Raise IndexError
      end
  | VDict _ => Raise (KeyError (VInt i))
  | VNone | VBool _ | VInt _ => Raise TypeError
  end.

(** [v - k] for an integer [k] *)
Definition py_sub (v : value) (k : Z) : result Z :=
  match v with
  | VInt n => Ok (n - k)
  | VBool b => Ok (int_of_bool b - k)
  | _ => Raise TypeError
  end.

(** [min(n, v)] for an integer [n]: [v] when [v < n], else [n] *)
Definition py_min (n : Z) (v : value) : result Z :=
  match v with
  | VInt m => Ok (if m <? n then m else n)
  | VBool b => Ok (if int_of_bool b <? n then int_of_bool b else n)
  | _ => Raise TypeError
  end.

(** A slice bound as Python normalises it against a length. *)
Definition slice_bound (len i : Z) : Z :=
  if i <? 0 then Z.max 0 (i + len) else Z.min i len.

(** [items[start:stop]] *)
Definition py_slice {A : Type} (items : list A) (start stop : Z) : list A :=
  let len := Z.of_nat (List.length items) in
  let lo := slice_bound len start in
  let hi := slice_bound len stop in
  firstn (Z.to_nat (hi - lo)) (skipn (Z.to_nat lo) items).

(** [sep.join(parts)] *)
Definition join (sep : string) (parts : list string) : string :=
  String.concat sep parts.

(** [open(file, 'r')] and [readlines()]: a string names a path, an integer
    (or a bool, which is one) a file descriptor, anything else is a
    [TypeError]. *)
Definition py_open_readlines (w : world) (file : value) : result (list string) :=
  match file with
  | VStr path => open_readlines w path
  | VInt fd => fdopen_readlines w fd
  | VBool b => fdopen_readlines w (int_of_bool b)
  | VNone | VList _ | VDict _ => Raise TypeError
  end.

(** ** Runs *)

(** What a run does that can be seen from outside: the lines it prints and
    the HTTP requests it posts. *)
Inductive event : Type :=
| EPrint (line : string)
| ERequest (target : string) (headers : list (string * string)) (json : value).

(** [posts] counts the requests posted so far; [trace] holds the events,
    the most recent first. *)
Record state : Type := mkState {
  posts : nat;
  trace : list event }.

Definition initial : state := {| posts := 0; trace := [] |}.

(** How a computation ends: it returns, an exception leaves it, or
    [sys.exit] was called. *)
Inductive outcome (A : Type) : Type :=
| Returned (a : A)
| Raised (e : exn)
| Exited (code : Z).
Arguments Returned {A} a.
Arguments Raised {A} e.
Arguments Exited {A} code.

Definition M (A : Type) : Type := state -> outcome A * state.

Definition ret {A : Type} (a : A) : M A := fun s => (Returned a, s).

Definition bind {A B : Type} (m : M A) (k : A -> M B) : M B :=
  fun s =>
    match m s with
    | (Returned a, s') => k a s'
    | (Raised e, s') => (Raised e, s')
    | (Exited c, s') => (Exited c, s')
    end.

Notation "x <- m ;; k" := (bind m (fun x => k))
  (at level 61, m at next level, right associativity).
Notation "m ;; k" := (bind m (fun _ => k))
  (at level 61, right associativity).

Definition lift {A : Type} (r : result A) : M A :=
  fun s =>
    match r with
    | Ok a => (Returned a, s)
    | Raise e => (Raised e, s)
    end.

(** [sys.exit(code)] *)
Definition sys_exit {A : Type} (code : Z) : M A := fun s => (Exited code, s).

(** [print(line)] *)
Definition print (line : string) : M unit :=
  fun s => (Returned tt, {| posts := posts s; trace := EPrint line :: trace s |}).

(** [try: body / except ...]: [handler] gives the clause that matches the
    exception, if one does. *)
Definition try_except {A : Type} (body : M A) (handler : exn -> option (M A)) : M A :=
  fun s =>
    match body s with
    | (Raised e, s') =>
        match handler e with
        | Some h => h s'
        | None => (Raised e, s')
        end
    | r => r
    end.

(** [requests.post(url, headers=headers, json=json, timeout=...)] *)
Definition post (w : world) (target : string) (headers : list (string * string))
    (json : value) : M response :=
  fun s =>
    let s' := {| posts := S (posts s);
                 trace := ERequest target headers json :: trace s |} in
    match requests_post w (posts s) with
    | Responded r => (Returned r, s')
    | RequestFailed msg resp => (Raised (RequestException msg resp), s')
    end.

(** The message of the [HTTPError] that [response.raise_for_status()]
    raises, if it raises. *)
Definition http_error_msg (r : response) : option string :=
  if (400 <=? status_code r) && (status_code r <? 500) then
    Some (str_of_int (status_code r) ++ " Client Error: " ++ reason r
          ++ " for url: " ++ url r)
  else if (500 <=? status_code r) && (status_code r <? 600) then
    Some (str_of_int (status_code r) ++ " Server Error: " ++ reason r
          ++ " for url: " ++ url r)
  else None.

Definition raise_for_status (r : response) : M unit :=
  match http_error_msg r with
  | Some msg => lift (Raise (RequestException msg (Some r)))
  | None => ret tt
  end.

(** [response.ok], which is also [bool(response)] *)
Definition response_ok (r : response) : bool :=
  match http_error_msg r with
  | Some _ => false
  | None => true
  end.

(** [response.json()] *)
Definition response_json (r : response) : M value :=
  match body r with
  | JsonDocument v => ret v
  | JsonInvalid msg => lift (Raise (RequestException msg None))
  end.

(** The exit status of the process for the way [main()] ended: an
    exception that nothing catches ends the interpreter with status 1. *)
Definition exit_code {A : Type} (o : outcome A) : Z :=
  match o with
  | Returned _ => 0
  | Raised _ => 1
  | Exited code => code
  end.

(** ** The script *)

(** *** 1. Configuration *)

Definition environ_get (w : world) (name : string) : value :=
  match environ w name with
  | Some s => VStr s
  | None => VNone
  end.

Definition OPENAI_API_KEY (w : world) : value := environ_get w "OPENAI_API_KEY".
Definition OPENAI_API_URL : string := "https://api.openai.com/v1/chat/completions".
Definition OPENAI_MODEL : string := "gpt-4o-mini".

Definition GITHUB_TOKEN (w : world) : value := environ_get w "GITHUB_TOKEN".
Definition REPO_NAME (w : world) : value := environ_get w "REPO_NAME".
Definition PR_NUMBER (w : world) : value := environ_get w "PR_NUMBER".
Definition BASE_REF (w : world) : value := environ_get w "BASE_REF".
Definition GITHUB_API_URL (w : world) : string :=
  "https://api.github.com/repos/" ++ py_str w (REPO_NAME w) ++ "/issues/"
  ++ py_str w (PR_NUMBER w) ++ "/comments".

Definition SCANNER_RESULTS_FILE : string := "semgrep_results.json".

Definition call_openai (w : world) (system_prompt user_prompt : string) : M value :=
  if negb (truthy (OPENAI_API_KEY w)) then
    print "Error: OPENAI_API_KEY not set." ;;
    ret (VStr "Error: OPENAI_API_KEY not set.")
  else
    let headers :=
      [("Authorization", "Bearer " ++ py_str w (OPENAI_API_KEY w));
       ("Content-Type", "application/json")] in
    let data :=
      VDict [("model", VStr OPENAI_MODEL);
             ("messages",
              VList [VDict [("role", VStr "system"); ("content", VStr system_prompt)];
                     VDict [("role", VStr "user"); ("content", VStr user_prompt)]])] in
    try_except
      (response <- post w OPENAI_API_URL headers data ;;
       raise_for_status response ;;
       document <- response_json response ;;
       choices <- lift (getitem document "choices") ;;
       choice <- lift (getitem_int choices 0) ;;
       message <- lift (getitem choice "message") ;;
       lift (getitem message "content"))
      (fun e =>
         match e with
         | RequestException msg _ =>
             Some (print ("Error calling OpenAI: " ++ msg) ;;
                   ret (VStr ("Error connecting to AI: " ++ msg)))
         | _ => None
         end).

(** *** 2. Git and file helpers *)

(** Diff against the forked (origin) base branch. *)
Definition diff_command (w : world) : list string :=
  ["git"; "diff"; "origin/" ++ py_str w (BASE_REF w)].

Definition get_pr_diff (w : world) : M value :=
  try_except
    (stdout <- lift (subprocess_run w (diff_command w)) ;;
     ret (VStr stdout))
    (fun e =>
       match e with
       | CalledProcessError msg =>
           Some (print ("Error getting git diff: " ++ msg) ;; ret VNone)
       | _ => None
       end).

Definition load_scanner_results (w : world) (filepath : string) : M value :=
  try_except
    (lift (open_json_load w filepath))
    (fun e =>
       match e with
       | FileNotFoundError =>
           Some (print "Scanner results file not found." ;; ret VNone)
       | JSONDecodeError =>
           Some (print "Error decoding scanner JSON." ;; ret VNone)
       | _ => None
       end).

Definition get_code_snippet (w : world) (file_path start_line end_line : value)
    : M value :=
  try_except
    (lines <- lift (py_open_readlines w file_path) ;;
     (* Adjust for 0-based indexing and ensure we don't go out of bounds *)
     start_line_1 <- lift (py_sub start_line 1) ;;
     let start := Z.max 0 start_line_1 in
     end_ <- lift (py_min (Z.of_nat (List.length lines)) end_line) ;;
     ret (VStr (join "" (py_slice lines start end_))))
    (fun e =>
       match e with
       | FileNotFoundError =>
           Some (ret (VStr ("Code snippet for " ++ py_str w file_path ++ " not found.")))
       | _ => None
       end).

(** *** 3. AI analysis functions *)

Definition get_ai_summary (w : world) (diff_content : value) : M value :=
  print "Getting AI summary for PR diff..." ;;
  let system_prompt :=
    "You are an expert code reviewer. "
    ++ "Review the following git diff and provide a concise, high-level summary of the changes. "
    ++ "Focus on the 'why' of the change, not just listing the files. Use bullet points." in
  let user_prompt := "Git Diff:" ++ nl ++ nl ++ py_str w diff_content in
  call_openai w system_prompt user_prompt.

(** The header that opens a suggestion. *)
Definition suggestion_header (w : world) (path start_line end_line : value) : string :=
  "**File: `" ++ py_str w path ++ "` (Lines " ++ py_str w start_line ++ "-"
  ++ py_str w end_line ++ ")**".

(** The body of the loop of [get_ai_fixes], for one finding. *)
Definition get_ai_fix (w : world) (finding : value) : M string :=
  path <- lift (getitem finding "path") ;;
  start <- lift (getitem finding "start") ;;
  start_line <- lift (getitem start "line") ;;
  end_ <- lift (getitem finding "end") ;;
  end_line <- lift (getitem end_ "line") ;;
  extra <- lift (getitem finding "extra") ;;
  message <- lift (getitem extra "message") ;;
  (* Get the vulnerable code *)
  code_snippet <- get_code_snippet w path start_line end_line ;;
  let system_prompt :=
    "You are an expert security developer and code reviewer. "
    ++ "A static analysis tool has found the following issue. "
    ++ "Your task is to:" ++ nl
    ++ "1. Briefly explain the *risk* of this issue in simple terms." ++ nl
    ++ "2. Provide a clear, actionable code suggestion to fix it." ++ nl
    ++ "3. Format your response clearly with 'Risk:' and 'Suggestion:' labels." in
  let user_prompt :=
    "**File:** `" ++ py_str w path ++ "` (Lines " ++ py_str w start_line ++ "-"
    ++ py_str w end_line ++ ")" ++ nl ++ nl
    ++ "**Issue:** " ++ py_str w message ++ nl ++ nl
    ++ "**Vulnerable Code Snippet:**" ++ nl ++ "```" ++ nl
    ++ py_str w code_snippet ++ nl ++ "```" in
  fix_suggestion <- call_openai w system_prompt user_prompt ;;
  (* Add the file path to the suggestion for context *)
  ret (suggestion_header w path start_line end_line ++ nl ++ nl
       ++ py_str w fix_suggestion).

(** [for finding in findings: ... ai_fixes.append(full_suggestion)] *)
Fixpoint for_findings (w : world) (findings : list value) (ai_fixes : list string)
    : M (list string) :=
  match findings with
  | [] => ret ai_fixes
  | finding :: rest =>
      full_suggestion <- get_ai_fix w finding ;;
      for_findings w rest (ai_fixes ++ [full_suggestion])
  end.

Definition isinstance_list (v : value) : bool :=
  match v with
  | VList _ => true
  | _ => false
  end.

(** The items a [for] loop draws from a list. *)
Definition items_of (v : value) : list value :=
  match v with
  | VList items => items
  | _ => []
  end.

Definition get_ai_fixes (w : world) (scanner_results : value) : M (list string) :=
  results <- lift (dict_get scanner_results "results" (VList [])) ;;
  count <- lift (py_len results) ;;
  print ("Analyzing " ++ str_of_int count ++ " scanner findings...") ;;
  (* Check if 'results' key exists and is a list *)
  findings <- lift (dict_get scanner_results "results" VNone) ;;
  if negb (truthy findings) || negb (isinstance_list findings) then
    print "No valid findings in scanner results." ;;
    ret []
  else
    for_findings w (items_of findings) [].

(** *** 4. Main orchestration *)

Definition format_final_comment (w : world) (summary : value) (fixes : list string)
    : string :=
  let body := "## 🤖 CodeScan-AI Review" ++ nl ++ nl in
  let body := body ++ ("### 📝 PR Summary" ++ nl) in
  let body := body ++ (py_str w summary ++ nl ++ nl) in
  let body := body ++ ("---" ++ nl ++ nl) in
  match fixes with
  | _ :: _ =>
      let body := body ++ ("### 🚨 Anomalies Detected" ++ nl ++ nl) in
      let body := body ++ ("I found the following issues that should be addressed:"
                           ++ nl ++ nl) in
      body ++ join (nl ++ nl ++ "---" ++ nl ++ nl) fixes
  | [] =>
      let body := body ++ ("### ✅ No Anomalies Found" ++ nl ++ nl) in
      body ++ "My automated scan found no critical issues. Great job!"
  end.

Definition post_to_pr (w : world) (comment_body : string) : M unit :=
  let headers :=
    [("Authorization", "Bearer " ++ py_str w (GITHUB_TOKEN w));
     ("Accept", "application/vnd.github.v3+json");
     ("Content-Type", "application/json")] in
  let data := VDict [("body", VStr comment_body)] in
  try_except
    (response <- post w (GITHUB_API_URL w) headers data ;;
     raise_for_status response ;;
     print "Successfully posted comment to PR.")
    (fun e =>
       match e with
       | RequestException msg resp =>
           Some (print ("Error posting to GitHub: " ++ msg) ;;
                 match resp with
                 | Some r =>
                     if response_ok r then print ("Response body: " ++ text r)
                     else ret tt
                 | None => ret tt
                 end)
       | _ => None
       end).

Definition main (w : world) : M unit :=
  if negb (forallb truthy [OPENAI_API_KEY w; GITHUB_TOKEN w; REPO_NAME w;
                           PR_NUMBER w; BASE_REF w]) then
    print "Error: Missing one or more environment variables." ;;
    sys_exit 1
  else
    diff <- get_pr_diff w ;;
    if negb (truthy diff) then
      print "Could not get PR diff. Exiting." ;;
      sys_exit 1
    else
      scanner_results <- load_scanner_results w SCANNER_RESULTS_FILE ;;
      if negb (truthy scanner_results) then
        print "Could not load scanner results. Exiting." ;;
        sys_exit 1
      else
        ai_summary <- get_ai_summary w diff ;;
        ai_fixes <- get_ai_fixes w scanner_results ;;
        let final_comment := format_final_comment w ai_summary ai_fixes in
        print (nl ++ "--- Final Comment ---") ;;
        print final_comment ;;
        print ("---------------------" ++ nl) ;;
        post_to_pr w final_comment.

(** The run of the script: [main()] from the initial state. *)
Definition run (w : world) : outcome unit * state := main w initial.

(** ** The sample application ([vulnerable_app.py]) *)

(** The variable [DB_PASS] is read only when the password is falsy. *)
Definition get_db_connection (w : world) : string :=
  let password := VStr "super-secret-password-123" in
  let password :=
    if negb (truthy password) then environ_get w "DB_PASS" else password in
  "connecting_with:" ++ py_str w password.

(** A string holds a NUL character. *)
Definition has_nul (s : string) : bool :=
  existsb (fun c => Ascii.eqb c Ascii.zero) (list_ascii_of_string s).

(** [os.system(command)], with the commands handed to the shell so far, the
    most recent first: a string without NUL is run by the shell [sh], which
    gives its wait status; a string with NUL is a [ValueError]; a value that
    is not a string is a [TypeError]. *)
Definition os_system (sh : string -> Z) (command : value) (shell : list string)
    : result Z * list string :=
  match command with
  | VStr line =>
      if has_nul line then (Raise (OtherError "ValueError"), shell)
      else (Ok (sh line), line :: shell)
  | _ => (Raise TypeError, shell)
  end.

Definition run_command (sh : string -> Z) (request_data : value)
    (shell : list string) : result value * list string :=
  match dict_get request_data "command" VNone with
  | Ok command =>
      match os_system sh command shell with
      | (Ok _, shell') => (Ok VNone, shell')
      | (Raise e, shell') => (Raise e, shell')
      end
  | Raise e => (Raise e, shell)
  end.

(** ** Vocabulary of the properties *)

(** [sub] occurs in [s]. *)
Definition contains (s sub : string) : Prop :=
  exists before after, s = before ++ sub ++ after.

(** [s] begins with [p]. *)
Definition starts_with (s p : string) : Prop :=
  exists rest, s = p ++ rest.

(** The lines of a file with their 1-based numbers, counting from [k]. *)
Fixpoint numbered_from (k : Z) (lines : list string) : list (Z * string) :=
  match lines with
  | [] => []
  | line :: rest => (k, line) :: numbered_from (k + 1) rest
  end.

(** The lines whose number lies in the inclusive range [first..last]. *)
Definition lines_between (lines : list string) (first last : Z) : list string :=
  map snd
    (filter (fun nl => (first <=? fst nl) && (fst nl <=? last))
       (numbered_from 1 lines)).

(** The text of the inclusive 1-based range [start..stop] of a file after
    clamping: a start below 1 counts as 1, an end past the last line as the
    last line. *)
Definition clamped_range_text (lines : list string) (start stop : Z) : string :=
  join "" (lines_between lines (Z.max 1 start)
             (Z.min (Z.of_nat (List.length lines)) stop)).

(** The settings the script reads from the environment, all required. *)
Definition required_settings : list string :=
  ["OPENAI_API_KEY"; "GITHUB_TOKEN"; "REPO_NAME"; "PR_NUMBER"; "BASE_REF"].

(** Every required setting is present and not empty. *)
Definition configured (w : world) : Prop :=
  forall name, In name required_settings ->
    exists v, environ w name = Some v /\ v <> "".

(** The line that [main] prints above the report. *)
Definition final_banner : string := nl ++ "--- Final Comment ---".

(** [line] was printed. *)
Definition printed (s : state) (line : string) : Prop :=
  In (EPrint line) (trace s).

(** A request that carries [comment] was posted to the pull request's
    comment endpoint, answered or not. *)
Definition comment_attempted (w : world) (s : state) (comment : string) : Prop :=
  exists headers,
    In (ERequest (GITHUB_API_URL w) headers (VDict [("body", VStr comment)]))
       (trace s).

(** An event of the part of a run that comes before the report: neither the
    banner above the report nor a request to the comment endpoint. *)
Definition before_report (w : world) (e : event) : Prop :=
  match e with
  | EPrint line => line <> final_banner
  | ERequest target _ _ => target <> GITHUB_API_URL w
  end.

(** No report has been printed or sent so far. *)
Definition unreported (w : world) (s : state) : Prop :=
  Forall (before_report w) (trace s).

(** A computation of the part before the report: it keeps [unreported] and
    never calls [sys.exit]. *)
Definition quiet (w : world) {A : Type} (m : M A) : Prop :=
  forall s, unreported w s ->
    unreported w (snd (m s)) /\ forall code, fst (m s) <> Exited code.

(** How a run can have ended: before any report, with exit status 1, or
    by returning after it posted a comment. *)
Definition settled (w : world) (r : outcome unit * state) : Prop :=
  (unreported w (snd r) /\ exit_code (fst r) = 1)
  \/ (fst r = Returned tt /\ exists comment, comment_attempted w (snd r) comment).

(** The ways a request fails that [requests] reports as a
    [RequestException], with the exception's message: no response at all
    (connection error, timeout), a response with a 4xx or 5xx status, a
    body that is not JSON. *)
Inductive request_fails : post_outcome -> string -> Prop :=
| network_error (msg : string) (resp : option response) :
    request_fails (RequestFailed msg resp) msg
| error_status (r : response) (msg : string) :
    http_error_msg r = Some msg -> request_fails (Responded r) msg
| invalid_json (r : response) (msg : string) :
    http_error_msg r = None -> body r = JsonInvalid msg ->
    request_fails (Responded r) msg.

(** The generated text in a reply's document:
    [document['choices'][0]['message']['content']]. *)
Definition content_of (document : value) : result value :=
  match getitem document "choices" with
  | Ok choices =>
      match getitem_int choices 0 with
      | Ok choice =>
          match getitem choice "message" with
          | Ok message => getitem message "content"
          | Raise e => Raise e
          end
      | Raise e => Raise e
      end
  | Raise e => Raise e
  end.

(** The request is answered with a document that holds [content]. *)
Definition request_answers (o : post_outcome) (content : value) : Prop :=
  exists r document,
    o = Responded r /\ http_error_msg r = None
    /\ body r = JsonDocument document /\ content_of document = Ok content.

(** What [call_openai] returns for an outcome of its request, when it
    returns: the generated content, or the text that stands for a failed
    request. *)
Definition generated (o : post_outcome) (v : value) : Prop :=
  request_answers o v
  \/ exists msg, request_fails o msg /\ v = VStr ("Error connecting to AI: " ++ msg).

(** The request that [call_openai] posts for a pair of prompts. *)
Definition openai_request (w : world) (system_prompt user_prompt : string) : event :=
  ERequest OPENAI_API_URL
    [("Authorization", "Bearer " ++ py_str w (OPENAI_API_KEY w));
     ("Content-Type", "application/json")]
    (VDict [("model", VStr OPENAI_MODEL);
            ("messages",
             VList [VDict [("role", VStr "system"); ("content", VStr system_prompt)];
                    VDict [("role", VStr "user"); ("content", VStr user_prompt)]])]).

(** The request that [post_to_pr] posts for a comment. *)
Definition github_request (w : world) (comment_body : string) : event :=
  ERequest (GITHUB_API_URL w)
    [("Authorization", "Bearer " ++ py_str w (GITHUB_TOKEN w));
     ("Accept", "application/vnd.github.v3+json");
     ("Content-Type", "application/json")]
    (VDict [("body", VStr comment_body)]).

(** A value that [len] refuses: [None], a boolean, a number. *)
Definition without_length (v : value) : bool :=
  match v with
  | VNone | VBool _ | VInt _ => true
  | VStr _ | VList _ | VDict _ => false
  end.

(** A value that is not a [dict]. *)
Definition not_an_object (v : value) : bool :=
  match v with
  | VDict _ => false
  | _ => true
  end.

(** The state once a request has been posted. *)
Definition requested (s : state) (request : event) : state :=
  {| posts := S (posts s); trace := request :: trace s |}.

(** The state once a line has been printed. *)
Definition having_printed (s : state) (line : string) : state :=
  {| posts := posts s; trace := EPrint line :: trace s |}.

(** The four fields [get_ai_fixes] reads from a finding, in the order it
    reads them: [path], [start.line], [end.line], [extra.message]. *)
Definition finding_fields (finding : value) : result (value * value * value * value) :=
  match getitem finding "path" with
  | Ok path =>
      match getitem finding "start" with
      | Ok start =>
          match getitem start "line" with
          | Ok start_line =>
              match getitem finding "end" with
              | Ok end_ =>
                  match getitem end_ "line" with
                  | Ok end_line =>
                      match getitem finding "extra" with
                      | Ok extra =>
                          match getitem extra "message" with
                          | Ok message => Ok (path, start_line, end_line, message)
                          | Raise e => Raise e
                          end
                      | Raise e => Raise e
                      end
                  | Raise e => Raise e
                  end
              | Raise e => Raise e
              end
          | Raise e => Raise e
          end
      | Raise e => Raise e
      end
  | Raise e => Raise e
  end.

(** A finding as the scanner's schema has it: a path that is a string, line
    numbers that are integers, a message. *)
Definition has_fields (finding : value) (path : string) (start_line end_line : Z)
    (message : value) : Prop :=
  finding_fields finding = Ok (VStr path, VInt start_line, VInt end_line, message).

(** What [get_ai_fixes] does with the fields of a finding. *)
Definition suggest (w : world) (path start_line end_line message : value) : M string :=
  code_snippet <- get_code_snippet w path start_line end_line ;;
  let system_prompt :=
    "You are an expert security developer and code reviewer. "
    ++ "A static analysis tool has found the following issue. "
    ++ "Your task is to:" ++ nl
    ++ "1. Briefly explain the *risk* of this issue in simple terms." ++ nl
    ++ "2. Provide a clear, actionable code suggestion to fix it." ++ nl
    ++ "3. Format your response clearly with 'Risk:' and 'Suggestion:' labels." in
  let user_prompt :=
    "**File:** `" ++ py_str w path ++ "` (Lines " ++ py_str w start_line ++ "-"
    ++ py_str w end_line ++ ")" ++ nl ++ nl
    ++ "**Issue:** " ++ py_str w message ++ nl ++ nl
    ++ "**Vulnerable Code Snippet:**" ++ nl ++ "```" ++ nl
    ++ py_str w code_snippet ++ nl ++ "```" in
  fix_suggestion <- call_openai w system_prompt user_prompt ;;
  ret (suggestion_header w path start_line end_line ++ nl ++ nl
       ++ py_str w fix_suggestion).

(** The file of a finding can be read, or does not exist. *)
Definition snippet_available (w : world) (path : string) : Prop :=
  (exists lines, open_readlines w path = Ok lines)
  \/ open_readlines w path = Raise FileNotFoundError.

(** [suggestion] is a suggestion for [finding]: it opens with the header
    made of the finding's path and line numbers, followed by a blank line. *)
Definition suggestion_for (w : world) (finding : value) (suggestion : string) : Prop :=
  exists path start_line end_line message,
    has_fields finding path start_line end_line message
    /\ starts_with suggestion
         (suggestion_header w (VStr path) (VInt start_line) (VInt end_line)
          ++ nl ++ nl).

(** What separates two suggestions in a report: a blank line, a rule, a
    blank line. *)
Definition separator : string := nl ++ nl ++ "---" ++ nl ++ nl.

(** The parts one after the other, each but the first preceded by [sep]. *)
Definition separated (sep : string) (parts : list string) : string :=
  match parts with
  | [] => ""
  | first :: rest => first ++ fold_right (fun p acc => sep ++ p ++ acc) "" rest
  end.

(** The head of every report: the title and the summary section. *)
Definition report_head (summary : string) : string :=
  "## 🤖 CodeScan-AI Review" ++ nl ++ nl
  ++ "### 📝 PR Summary" ++ nl
  ++ summary ++ nl ++ nl
  ++ "---" ++ nl ++ nl.

(** A [results] field that yields no findings: absent, an empty list, or a
    string or an object in place of the list. *)
Definition without_findings (results : option value) : bool :=
  match results with
  | None => true
  | Some (VList []) => true
  | Some (VStr _) => true
  | Some (VDict _) => true
  | _ => false
  end.

(** The last lines of [main], from the summary on. *)
Definition review (w : world) (diff scanner_results : value) : M unit :=
  ai_summary <- get_ai_summary w diff ;;
  ai_fixes <- get_ai_fixes w scanner_results ;;
  let final_comment := format_final_comment w ai_summary ai_fixes in
  print (nl ++ "--- Final Comment ---") ;;
  print final_comment ;;
  print ("---------------------" ++ nl) ;;
  post_to_pr w final_comment.

(** A computation keeps a property of states. *)
Definition preserves (I : state -> Prop) {A : Type} (m : M A) : Prop :=
  forall s, I s -> I (snd (m s)).

(** A property of states that the three visible steps of the script keep:
    printing a line, posting a request to the text-generation service,
    posting a comment. *)
Definition stable (w : world) (I : state -> Prop) : Prop :=
  (forall line s, I s -> I (having_printed s line))
  /\ (forall system_prompt user_prompt s,
        I s -> I (requested s (openai_request w system_prompt user_prompt)))
  /\ (forall comment s, I s -> I (requested s (github_request w comment))).

(** The requests among the events of a trace. *)
Definition requests_in (events : list event) : list event :=
  filter (fun e => match e with ERequest _ _ _ => true | EPrint _ => false end)
    events.

(** The lines among the events of a trace. *)
Definition is_print (e : event) : Prop :=
  match e with
  | EPrint _ => True
  | ERequest _ _ _ => False
  end.

(** An event the script can produce: a line, a request to the
    text-generation service with the key of that service, or a comment posted
    with the token of the collaboration endpoint. *)
Definition sent_by_script (w : world) (e : event) : Prop :=
  match e with
  | EPrint _ => True
  | ERequest _ _ _ =>
      (exists system_prompt user_prompt,
         e = openai_request w system_prompt user_prompt)
      \/ (exists comment, e = github_request w comment)
  end.

(** [suggestion] opens with the header made of the fields that
    [get_ai_fixes] reads from [finding], whatever their types, followed by a
    blank line. *)
Definition headed_by (w : world) (finding : value) (suggestion : string) : Prop :=
  exists path start_line end_line message,
    finding_fields finding = Ok (path, start_line, end_line, message)
    /\ starts_with suggestion
         (suggestion_header w path start_line end_line ++ nl ++ nl).

(** The last line of a run that [sys.exit] ends. *)
Definition exit_diagnostics : list string :=
  ["Error: Missing one or more environment variables.";
   "Could not get PR diff. Exiting.";
   "Could not load scanner results. Exiting."].

(** The rule that [main] prints below the report. *)
Definition final_rule : string := "---------------------" ++ nl.

(** The state once [main] has printed the report between its banner and
    its rule. *)
Definition having_reported (s : state) (report : string) : state :=
  having_printed (having_printed (having_printed s final_banner) report) final_rule.

(** The lines [post_to_pr] prints after its request, the most recent first. *)
Definition delivery_lines (o : post_outcome) : list string :=
  match o with
  | Responded r =>
      match http_error_msg r with
      | None => ["Successfully posted comment to PR."]
      | Some msg => ["Error posting to GitHub: " ++ msg]
      end
  | RequestFailed msg (Some r) =>
      if response_ok r
      then ["Response body: " ++ text r; "Error posting to GitHub: " ++ msg]
      else ["Error posting to GitHub: " ++ msg]
  | RequestFailed msg None => ["Error posting to GitHub: " ++ msg]
  end.

(** A value that is not a number: neither an [int] nor a [bool]. *)
Definition not_a_number (v : value) : bool :=
  match v with
  | VInt _ | VBool _ => false
  | _ => true
  end.

(** The system prompt of the Summary Generator. *)
Definition summary_system_prompt : string :=
  "You are an expert code reviewer. "
  ++ "Review the following git diff and provide a concise, high-level summary of the changes. "
  ++ "Focus on the 'why' of the change, not just listing the files. Use bullet points.".

(** ** Sample worlds *)

Definition sample_environ (name : string) : option string :=
  if (name =? "OPENAI_API_KEY")%string then Some "sk-sample"
  else if (name =? "GITHUB_TOKEN")%string then Some "ghs-sample"
  else if (name =? "REPO_NAME")%string then Some "octo/demo"
  else if (name =? "PR_NUMBER")%string then Some "7"
  else if (name =? "BASE_REF")%string then Some "main"
  else None.

(** [a.py], five lines long. *)
Definition a_py : list string :=
  ["import os" ++ nl; nl; "def connect():" ++ nl;
   "    password = 'hunter2'" ++ nl; "    return password" ++ nl].

(** A reply of the text-generation service that carries [content]. *)
Definition completion (content : string) : response :=
  {| status_code := 200; reason := "OK"; url := OPENAI_API_URL; text := "";
     body := JsonDocument
       (VDict [("choices",
                VList [VDict [("message",
                               VDict [("role", VStr "assistant");
                                      ("content", VStr content)])]])]) |}.

(** A checkout with [a.py] alone, a one-line diff against [origin/main], a
    scan without findings, and services that answer every request. *)
Definition sample_world : world :=
  {| environ := sample_environ;
     subprocess_run := fun cmd =>
       match cmd with
       | ["git"; "diff"; "origin/main"] => Ok "+print('hi')"
       | _ => Raise (OtherError "FileNotFoundError")
       end;
     open_readlines := fun path =>
       if (path =? "a.py")%string then Ok a_py else Raise FileNotFoundError;
     fdopen_readlines := fun _ => Raise (OtherError "OSError");
     open_json_load := fun path =>
       if (path =? "semgrep_results.json")%string
       then Ok (VDict [("results", VList [])])
       else Raise FileNotFoundError;
     requests_post := fun _ => Responded (completion "Looks fine.");
     py_repr := fun _ => "[...]" |}.

(** [w] with another file system. *)
Definition with_files (w : world) (files : string -> result (list string)) : world :=
  {| environ := environ w; subprocess_run := subprocess_run w;
     open_readlines := files; fdopen_readlines := fdopen_readlines w;
     open_json_load := open_json_load w; requests_post := requests_post w;
     py_repr := py_repr w |}.

(** [secrets.py] exists and this process may not read it. *)
Definition locked_world : world :=
  with_files sample_world
    (fun path =>
       if (path =? "secrets.py")%string then Raise (OtherError "PermissionError")
       else open_readlines sample_world path).

(** [w] with another findings file. *)
Definition with_scan (w : world) (scan : string -> result value) : world :=
  {| environ := environ w; subprocess_run := subprocess_run w;
     open_readlines := open_readlines w; fdopen_readlines := fdopen_readlines w;
     open_json_load := scan; requests_post := requests_post w;
     py_repr := py_repr w |}.

(** [w] with other answers to its requests. *)
Definition with_replies (w : world) (replies : nat -> post_outcome) : world :=
  {| environ := environ w; subprocess_run := subprocess_run w;
     open_readlines := open_readlines w; fdopen_readlines := fdopen_readlines w;
     open_json_load := open_json_load w; requests_post := replies;
     py_repr := py_repr w |}.

(** [w] with another behaviour of its commands. *)
Definition with_commands (w : world) (commands : list string -> result string) : world :=
  {| environ := environ w; subprocess_run := commands;
     open_readlines := open_readlines w; fdopen_readlines := fdopen_readlines w;
     open_json_load := open_json_load w; requests_post := requests_post w;
     py_repr := py_repr w |}.

(** [w] with another environment. *)
Definition with_environ (w : world) (env : string -> option string) : world :=
  {| environ := env; subprocess_run := subprocess_run w;
     open_readlines := open_readlines w; fdopen_readlines := fdopen_readlines w;
     open_json_load := open_json_load w; requests_post := requests_post w;
     py_repr := py_repr w |}.

(** One finding of the scanner. *)
Definition finding_at (path : string) (start_line end_line : Z) (message : string)
    : value :=
  VDict [("check_id", VStr "rules.hardcoded-secret");
         ("path", VStr path);
         ("start", VDict [("line", VInt start_line); ("col", VInt 5)]);
         ("end", VDict [("line", VInt end_line); ("col", VInt 30)]);
         ("extra", VDict [("message", VStr message); ("severity", VStr "ERROR")])].

(** A findings document. *)
Definition scan_of (findings : list value) : value :=
  VDict [("version", VStr "1.90.0"); ("results", VList findings)].

(** The scan reports lines 3 to 4 of [a.py]. *)
Definition scanned_world : world :=
  with_scan sample_world
    (fun _ => Ok (scan_of [finding_at "a.py" 3 4 "hardcoded secret"])).

(** The scan reports [secrets.py], which cannot be read. *)
Definition locked_scan_world : world :=
  with_scan locked_world
    (fun _ => Ok (scan_of [finding_at "secrets.py" 1 1 "hardcoded secret"])).



(** A finding whose [extra] holds no [message]. *)
Definition finding_without_message : value :=
  VDict [("path", VStr "a.py");
         ("start", VDict [("line", VInt 3)]);
         ("end", VDict [("line", VInt 4)]);
         ("extra", VDict [])].

(** The scan reports that finding. *)
Definition messageless_world : world :=
  with_scan sample_world (fun _ => Ok (scan_of [finding_without_message])).




(** The working tree is identical to the base reference. *)
Definition unchanged_world : world :=
  with_commands sample_world (fun _ => Ok "").

(** No token for the collaboration endpoint. *)
Definition tokenless_world : world :=
  with_environ sample_world
    (fun name => if (name =? "GITHUB_TOKEN")%string then None
                 else sample_environ name).

(** The findings file holds an empty JSON object. *)
Definition empty_scan_world : world :=
  with_scan sample_world (fun _ => Ok (VDict [])).

(** The findings file holds [null] in place of the list of results. *)
Definition null_results : list (string * value) :=
  [("version", VStr "1.90.0"); ("results", VNone)].

(** The collaboration endpoint refuses the comment. *)
Definition forbidden : response :=
  {| status_code := 403; reason := "Forbidden";
     url := GITHUB_API_URL sample_world;
     text := "Resource not accessible by integration";
     body := JsonInvalid "Expecting value: line 1 column 1 (char 0)" |}.

Definition refusing_world : world :=
  with_replies sample_world (fun _ => Responded forbidden).

(** [git] is not installed. *)
Definition gitless_world : world :=
  with_commands sample_world (fun _ => Raise (OtherError "FileNotFoundError")).

(** There is no findings file. *)
Definition scanless_world : world :=
  with_scan sample_world (fun _ => Raise FileNotFoundError).

(** The scan reports two findings, the second one in a file that is not in
    the checkout; the text-generation service cannot be reached. *)
Definition offline_world : world :=
  with_replies
    (with_scan sample_world
       (fun _ => Ok (scan_of [finding_at "a.py" 3 4 "hardcoded secret";
                              finding_at "b.py" 1 2 "dangerous call"])))
    (fun n =>
       match n with
       | 3%nat => Responded (completion "unused")
       | _ => RequestFailed "Connection refused" None
       end).

(** A shell in which every command succeeds. *)
Definition obliging_shell (line : string) : Z := 0.

(** ** Proofs *)

(** *** Strings and lists *)

Lemma append_assoc (a b c : string) : ((a ++ b) ++ c = a ++ (b ++ c))%string.
Proof.
  induction a as [|ch a IH]; simpl; [reflexivity | now rewrite IH].
Qed.

Lemma lines_between_slice (lines : list string) (k first last : Z) :
  map snd
    (filter (fun nl => (first <=? fst nl) && (fst nl <=? last))
       (numbered_from k lines))
  = firstn (Z.to_nat (last - Z.max first k + 1))
      (skipn (Z.to_nat (first - k)) lines).
Proof.
  revert k; induction lines as [|line rest IH]; intros k.
  - now rewrite skipn_nil, firstn_nil.
  - cbn [numbered_from filter fst].
    destruct (Z.leb_spec first k) as [Hf|Hf];
      destruct (Z.leb_spec k last) as [Hl|Hl]; cbn [andb map snd]; rewrite IH.
    + replace (Z.to_nat (first - k)) with 0%nat by lia.
      replace (Z.to_nat (first - (k + 1))) with 0%nat by lia.
      replace (Z.to_nat (last - Z.max first k + 1))
        with (S (Z.to_nat (last - Z.max first (k + 1) + 1))) by lia.
      reflexivity.
    + replace (Z.to_nat (last - Z.max first (k + 1) + 1)) with 0%nat by lia.
      replace (Z.to_nat (last - Z.max first k + 1)) with 0%nat by lia.
      reflexivity.
    + replace (Z.to_nat (first - k)) with (S (Z.to_nat (first - (k + 1)))) by lia.
      replace (Z.max first (k + 1)) with (Z.max first k) by lia.
      reflexivity.
    + replace (Z.to_nat (first - k)) with (S (Z.to_nat (first - (k + 1)))) by lia.
      replace (Z.max first (k + 1)) with (Z.max first k) by lia.
      reflexivity.
Qed.

(** A slice that starts at or after the end of the list is empty. *)
Lemma py_slice_past_end {A : Type} (items : list A) (start stop : Z) :
  Z.of_nat (List.length items) <= start -> py_slice items start stop = [].
Proof.
  intros H. unfold py_slice, slice_bound.
  destruct (Z.ltb_spec start 0) as [Hneg|_]; [exfalso; lia|].
  rewrite (Z.min_r start) by lia. rewrite Nat2Z.id, skipn_all. apply firstn_nil.
Qed.

(** With bounds that are not negative, a slice holds the lines numbered
    [start + 1 .. stop]. *)
Lemma py_slice_lines_between (lines : list string) (start stop : Z) :
  0 <= start -> 0 <= stop -> stop <= Z.of_nat (List.length lines) ->
  py_slice lines start stop = lines_between lines (start + 1) stop.
Proof.
  intros Hs He Hlen. unfold py_slice, slice_bound, lines_between.
  rewrite lines_between_slice.
  destruct (Z.ltb_spec start 0); [exfalso; lia|].
  destruct (Z.ltb_spec stop 0); [exfalso; lia|].
  rewrite (Z.min_l stop) by lia.
  replace (stop - Z.max (start + 1) 1 + 1) with (stop - start) by lia.
  replace (start + 1 - 1) with start by lia.
  destruct (Z.le_gt_cases start (Z.of_nat (List.length lines))) as [Hin|Hout].
  - now rewrite (Z.min_l start) by lia.
  - rewrite (Z.min_r start) by lia. rewrite Nat2Z.id, skipn_all.
    rewrite (skipn_all2 lines) by lia. now rewrite !firstn_nil.
Qed.

(** *** Snippet extraction *)

(** On a file that opens, with integer line numbers, the snippet is the
    slice the code takes. *)
Lemma get_code_snippet_readable (w : world) (path : string) (lines : list string)
    (start_line end_line : Z) (s : state) :
  open_readlines w path = Ok lines ->
  get_code_snippet w (VStr path) (VInt start_line) (VInt end_line) s
  = (Returned
       (VStr (join ""
          (py_slice lines (Z.max 0 (start_line - 1))
             (if end_line <? Z.of_nat (List.length lines) then end_line
              else Z.of_nat (List.length lines))))), s).
Proof.
  intros Hopen.
  unfold get_code_snippet, try_except, bind, lift, ret; cbn [py_open_readlines].
  rewrite Hopen. reflexivity.
Qed.

(** When the file does not open, only [FileNotFoundError] is caught. *)
Lemma get_code_snippet_unopened (w : world) (file start_line end_line : value)
    (e : exn) (s : state) :
  py_open_readlines w file = Raise e ->
  get_code_snippet w file start_line end_line s
  = match e with
    | FileNotFoundError =>
        (Returned (VStr ("Code snippet for " ++ py_str w file ++ " not found.")), s)
    | _ => (Raised e, s)
    end.
Proof.
  intros Hopen. unfold get_code_snippet, try_except, bind, lift, ret.
  rewrite Hopen. destruct e; reflexivity.
Qed.

(** C3 (as amended): on a readable file, a line range that starts past the
    last line yields the empty string, whatever its end, and the call
    returns without an exception and without any effect. *)
Theorem snippet_beyond_last_line_is_empty (w : world) (path : string)
    (lines : list string) (start_line end_line : Z) (s : state) :
  open_readlines w path = Ok lines ->
  Z.of_nat (List.length lines) < start_line ->
  get_code_snippet w (VStr path) (VInt start_line) (VInt end_line) s
  = (Returned (VStr ""), s).
Proof.
  intros Hopen Hpast. rewrite (get_code_snippet_readable _ _ _ _ _ _ Hopen).
  rewrite py_slice_past_end by lia. reflexivity.
Qed.

(** C6 (as amended): on a readable file, for every start and every end that
    is not negative, the snippet is the text of the lines of the inclusive
    1-based range after clamping the start up to 1 and the end down to the
    file's line count. *)
Theorem snippet_is_clamped_range (w : world) (path : string)
    (lines : list string) (start_line end_line : Z) (s : state) :
  open_readlines w path = Ok lines ->
  0 <= end_line ->
  get_code_snippet w (VStr path) (VInt start_line) (VInt end_line) s
  = (Returned (VStr (clamped_range_text lines start_line end_line)), s).
Proof.
  intros Hopen Hend. rewrite (get_code_snippet_readable _ _ _ _ _ _ Hopen).
  unfold clamped_range_text.
  assert (Hmin : (if end_line <? Z.of_nat (List.length lines) then end_line
                  else Z.of_nat (List.length lines))
                 = Z.min (Z.of_nat (List.length lines)) end_line)
    by (destruct (Z.ltb_spec end_line (Z.of_nat (List.length lines))); lia).
  rewrite Hmin, py_slice_lines_between by lia.
  replace (Z.max 0 (start_line - 1) + 1) with (Z.max 1 start_line) by lia.
  reflexivity.
Qed.

(** C7 (as amended): when opening the file fails because it does not exist,
    the snippet is the text [Code snippet for <path> not found.], for any
    line numbers, and nothing is raised. *)
Theorem snippet_of_missing_file (w : world) (path : string)
    (start_line end_line : value) (s : state) :
  open_readlines w path = Raise FileNotFoundError ->
  get_code_snippet w (VStr path) start_line end_line s
  = (Returned (VStr ("Code snippet for " ++ path ++ " not found.")), s)
  /\ contains ("Code snippet for " ++ path ++ " not found.") "not found".
Proof.
  intros Hopen. split.
  - now rewrite (get_code_snippet_unopened w (VStr path) _ _ FileNotFoundError).
  - exists ("Code snippet for " ++ path ++ " "), ".".
    rewrite !append_assoc. reflexivity.
Qed.

(** *** The part of a run before the report *)

Lemma quiet_ret (w : world) {A : Type} (a : A) : quiet w (ret a).
Proof. intros s Hs; split; [exact Hs | discriminate]. Qed.

Lemma quiet_lift (w : world) {A : Type} (r : result A) : quiet w (lift r).
Proof. intros s Hs; destruct r; split; try exact Hs; discriminate. Qed.

Lemma quiet_print (w : world) (line : string) :
  line <> final_banner -> quiet w (print line).
Proof.
  intros Hline s Hs; split; [|discriminate].
  constructor; [exact Hline | exact Hs].
Qed.

Lemma quiet_bind (w : world) {A B : Type} (m : M A) (k : A -> M B) :
  quiet w m -> (forall a, quiet w (k a)) -> quiet w (bind m k).
Proof.
  intros Hm Hk s Hs. unfold bind.
  destruct (Hm s Hs) as [Hs' Hexit].
  destruct (m s) as [[a|e|code] s']; cbn [fst snd] in *.
  - exact (Hk a s' Hs').
  - split; [exact Hs' | discriminate].
  - now destruct (Hexit code).
Qed.

Lemma quiet_try_except (w : world) {A : Type} (body : M A)
    (handler : exn -> option (M A)) :
  quiet w body -> (forall e h, handler e = Some h -> quiet w h) ->
  quiet w (try_except body handler).
Proof.
  intros Hb Hh s Hs. unfold try_except.
  destruct (Hb s Hs) as [Hs' Hexit].
  destruct (body s) as [[a|e|code] s']; cbn [fst snd] in *.
  - split; [exact Hs' | discriminate].
  - destruct (handler e) as [h|] eqn:He.
    + exact (Hh e h He s' Hs').
    + split; [exact Hs' | discriminate].
  - now destruct (Hexit code).
Qed.

Lemma openai_is_not_github (w : world) : OPENAI_API_URL <> GITHUB_API_URL w.
Proof. unfold OPENAI_API_URL, GITHUB_API_URL. cbn. discriminate. Qed.

Lemma quiet_post (w : world) (target : string) (headers : list (string * string))
    (json : value) :
  target <> GITHUB_API_URL w -> quiet w (post w target headers json).
Proof.
  intros Ht s Hs. unfold post.
  destruct (requests_post w (posts s)); cbn [fst snd]; split; try discriminate;
    (constructor; [exact Ht | exact Hs]).
Qed.

Lemma quiet_raise_for_status (w : world) (r : response) : quiet w (raise_for_status r).
Proof.
  unfold raise_for_status. destruct (http_error_msg r);
    [apply quiet_lift | apply quiet_ret].
Qed.

Lemma quiet_response_json (w : world) (r : response) : quiet w (response_json r).
Proof.
  unfold response_json. destruct (body r); [apply quiet_ret | apply quiet_lift].
Qed.

(** Composes the lemmas above along the structure of a computation. *)
Ltac quiet_steps :=
  repeat first
    [ apply quiet_ret
    | apply quiet_lift
    | apply quiet_raise_for_status
    | apply quiet_response_json
    | apply quiet_print; cbn; discriminate
    | apply quiet_post; apply openai_is_not_github
    | apply quiet_bind; [|intros ?] ].

Lemma quiet_call_openai (w : world) (system_prompt user_prompt : string) :
  quiet w (call_openai w system_prompt user_prompt).
Proof.
  unfold call_openai. destruct (negb (truthy (OPENAI_API_KEY w))).
  - quiet_steps.
  - apply quiet_try_except; [quiet_steps|].
    intros e h He. destruct e; inversion He; subst. quiet_steps.
Qed.

Lemma quiet_get_pr_diff (w : world) : quiet w (get_pr_diff w).
Proof.
  unfold get_pr_diff. apply quiet_try_except; [quiet_steps|].
  intros e h He. destruct e; inversion He; subst. quiet_steps.
Qed.

Lemma quiet_load_scanner_results (w : world) (filepath : string) :
  quiet w (load_scanner_results w filepath).
Proof.
  unfold load_scanner_results. apply quiet_try_except; [quiet_steps|].
  intros e h He. destruct e; inversion He; subst; quiet_steps.
Qed.

Lemma quiet_get_code_snippet (w : world) (file_path start_line end_line : value) :
  quiet w (get_code_snippet w file_path start_line end_line).
Proof.
  unfold get_code_snippet. apply quiet_try_except; [quiet_steps|].
  intros e h He. destruct e; inversion He; subst. quiet_steps.
Qed.

Lemma quiet_get_ai_summary (w : world) (diff_content : value) :
  quiet w (get_ai_summary w diff_content).
Proof.
  unfold get_ai_summary. quiet_steps. apply quiet_call_openai.
Qed.

Lemma quiet_get_ai_fix (w : world) (finding : value) : quiet w (get_ai_fix w finding).
Proof.
  unfold get_ai_fix. quiet_steps.
  - apply quiet_get_code_snippet.
  - apply quiet_call_openai.
Qed.

Lemma quiet_for_findings (w : world) (findings : list value) (ai_fixes : list string) :
  quiet w (for_findings w findings ai_fixes).
Proof.
  revert ai_fixes; induction findings as [|finding rest IH]; intros ai_fixes; cbn.
  - apply quiet_ret.
  - apply quiet_bind; [apply quiet_get_ai_fix | intros suggestion; apply IH].
Qed.

Lemma quiet_get_ai_fixes (w : world) (scanner_results : value) :
  quiet w (get_ai_fixes w scanner_results).
Proof.
  unfold get_ai_fixes. quiet_steps.
  match goal with |- quiet _ (if ?c then _ else _) => destruct c end.
  - quiet_steps.
  - apply quiet_for_findings.
Qed.

Lemma unreported_not_printed (w : world) (s : state) :
  unreported w s -> ~ printed s final_banner.
Proof.
  intros Hs Hp. unfold unreported in Hs. rewrite Forall_forall in Hs.
  now apply (Hs _ Hp).
Qed.

Lemma unreported_not_attempted (w : world) (s : state) (comment : string) :
  unreported w s -> ~ comment_attempted w s comment.
Proof.
  intros Hs [headers Hin]. unfold unreported in Hs. rewrite Forall_forall in Hs.
  now apply (Hs _ Hin).
Qed.

(** *** Configuration *)

Lemma truthy_environ_get (w : world) (name : string) :
  truthy (environ_get w name) = true
  <-> exists v, environ w name = Some v /\ v <> "".
Proof.
  unfold environ_get. destruct (environ w name) as [v|]; cbn.
  - destruct (String.eqb_spec v "") as [->|Hne]; cbn; split.
    + discriminate.
    + intros (v & Hv & Hne); inversion Hv; subst; now destruct Hne.
    + intros _; now exists v.
    + reflexivity.
  - split; [discriminate | intros (v & Hv & _); discriminate].
Qed.

Lemma configured_iff (w : world) :
  configured w
  <-> forallb truthy [OPENAI_API_KEY w; GITHUB_TOKEN w; REPO_NAME w;
                      PR_NUMBER w; BASE_REF w] = true.
Proof.
  unfold OPENAI_API_KEY, GITHUB_TOKEN, REPO_NAME, PR_NUMBER, BASE_REF.
  cbn [forallb]. rewrite !andb_true_iff, !truthy_environ_get.
  unfold configured, required_settings. split.
  - intros H; repeat split; try apply H; cbn; auto 10.
  - intros (H1 & H2 & H3 & H4 & H5 & _) name
      [<-|[<-|[<-|[<-|[<-|[]]]]]]; assumption.
Qed.

(** *** Delivery *)

(** [post_to_pr] posts the comment and returns, whatever the endpoint does. *)
Lemma post_to_pr_returns (w : world) (comment_body : string) (s : state) :
  fst (post_to_pr w comment_body s) = Returned tt
  /\ comment_attempted w (snd (post_to_pr w comment_body s)) comment_body
  /\ forall e, In e (trace s) -> In e (trace (snd (post_to_pr w comment_body s))).
Proof.
  unfold post_to_pr, try_except, bind, post, raise_for_status, response_ok,
    lift, ret, print, comment_attempted.
  destruct (requests_post w (posts s)) as [r|msg [r|]];
    try (destruct (http_error_msg r) eqn:Hstatus; try rewrite Hstatus);
    cbn [fst snd trace]; (split; [reflexivity|]);
    (split; [eexists; cbn; eauto 6 | intros e He; cbn; eauto 6]).
Qed.

(** *** The shape of a run *)

Lemma settled_bind (w : world) {A : Type} (m : M A) (k : A -> M unit) (s : state) :
  quiet w m -> unreported w s ->
  (forall a s', unreported w s' -> settled w (k a s')) ->
  settled w (bind m k s).
Proof.
  intros Hm Hs Hk. unfold bind. destruct (Hm s Hs) as [Hs' Hexit].
  destruct (m s) as [[a|e|code] s']; cbn [fst snd] in *.
  - now apply Hk.
  - left; split; [exact Hs' | reflexivity].
  - now destruct (Hexit code).
Qed.

Lemma settled_exit (w : world) (line : string) (s : state) :
  line <> final_banner -> unreported w s ->
  settled w ((print line ;; sys_exit 1) s).
Proof.
  intros Hline Hs. left; cbn; split; [|reflexivity].
  constructor; [exact Hline | exact Hs].
Qed.

Lemma settled_post_to_pr (w : world) (comment_body : string) (s : state) :
  settled w (post_to_pr w comment_body s).
Proof.
  right. destruct (post_to_pr_returns w comment_body s) as (Hret & Hatt & _).
  split; [exact Hret | now exists comment_body].
Qed.

Lemma settled_review (w : world) (diff scanner_results : value) (s : state) :
  unreported w s -> settled w (review w diff scanner_results s).
Proof.
  intros Hs. unfold review.
  apply settled_bind; [apply quiet_get_ai_summary | exact Hs |].
  intros ai_summary s1 Hs1.
  apply settled_bind; [apply quiet_get_ai_fixes | exact Hs1 |].
  intros ai_fixes s2 Hs2. apply settled_post_to_pr.
Qed.

Lemma main_review (w : world) (s : state) :
  main w s
  = (if negb (forallb truthy [OPENAI_API_KEY w; GITHUB_TOKEN w; REPO_NAME w;
                              PR_NUMBER w; BASE_REF w]) then
       print "Error: Missing one or more environment variables." ;;
       sys_exit 1
     else
       diff <- get_pr_diff w ;;
       if negb (truthy diff) then
         print "Could not get PR diff. Exiting." ;;
         sys_exit 1
       else
         scanner_results <- load_scanner_results w SCANNER_RESULTS_FILE ;;
         if negb (truthy scanner_results) then
           print "Could not load scanner results. Exiting." ;;
           sys_exit 1
         else review w diff scanner_results) s.
Proof. reflexivity. Qed.

(** Every run ends in one of two ways. *)
Lemma run_settled (w : world) : settled w (run w).
Proof.
  assert (H0 : unreported w initial) by constructor.
  unfold run. rewrite main_review. destruct (negb (forallb truthy _)).
  - apply settled_exit; [cbn; discriminate | exact H0].
  - apply settled_bind; [apply quiet_get_pr_diff | exact H0 |].
    intros diff s1 Hs1. destruct (negb (truthy diff)).
    + apply settled_exit; [cbn; discriminate | exact Hs1].
    + apply settled_bind; [apply quiet_load_scanner_results | exact Hs1 |].
      intros scanner_results s2 Hs2. destruct (negb (truthy scanner_results)).
      * apply settled_exit; [cbn; discriminate | exact Hs2].
      * now apply settled_review.
Qed.

(** *** Acquiring the inputs *)

Lemma get_pr_diff_eq (w : world) (s : state) :
  get_pr_diff w s
  = match subprocess_run w (diff_command w) with
    | Ok stdout => (Returned (VStr stdout), s)
    | Raise (CalledProcessError msg) =>
        (Returned VNone,
         {| posts := posts s;
            trace := EPrint ("Error getting git diff: " ++ msg) :: trace s |})
    | Raise e => (Raised e, s)
    end.
Proof.
  unfold get_pr_diff, try_except, bind, lift, ret, print.
  destruct (subprocess_run w (diff_command w)) as [stdout|[]]; reflexivity.
Qed.

Lemma load_scanner_results_eq (w : world) (filepath : string) (s : state) :
  load_scanner_results w filepath s
  = match open_json_load w filepath with
    | Ok document => (Returned document, s)
    | Raise FileNotFoundError =>
        (Returned VNone,
         {| posts := posts s;
            trace := EPrint "Scanner results file not found." :: trace s |})
    | Raise JSONDecodeError =>
        (Returned VNone,
         {| posts := posts s;
            trace := EPrint "Error decoding scanner JSON." :: trace s |})
    | Raise e => (Raised e, s)
    end.
Proof.
  unfold load_scanner_results, try_except, bind, lift, ret, print.
  destruct (open_json_load w filepath) as [document|[]]; reflexivity.
Qed.

(** With the inputs at hand, a run is the review of them. *)
Lemma run_is_review (w : world) (diff : string) (scanner_results : value) :
  configured w ->
  subprocess_run w (diff_command w) = Ok diff -> diff <> "" ->
  open_json_load w SCANNER_RESULTS_FILE = Ok scanner_results ->
  truthy scanner_results = true ->
  run w = review w (VStr diff) scanner_results initial.
Proof.
  intros Hcfg Hdiff Hne Hload Htruthy. unfold run. rewrite main_review.
  apply configured_iff in Hcfg. rewrite Hcfg. cbn [negb].
  unfold bind at 1. rewrite get_pr_diff_eq, Hdiff. cbn [truthy].
  destruct (String.eqb_spec diff "") as [->|_]; [now destruct Hne|]. cbn [negb].
  unfold bind at 1. rewrite load_scanner_results_eq, Hload, Htruthy. reflexivity.
Qed.

(** Without its configuration, a run prints one line and exits with 1. *)
Lemma run_unconfigured (w : world) :
  ~ configured w ->
  run w = (Exited 1,
           {| posts := 0;
              trace := [EPrint "Error: Missing one or more environment variables."] |}).
Proof.
  intros Hcfg. unfold run. rewrite main_review.
  destruct (forallb truthy _) eqn:Hall; [|reflexivity].
  now apply configured_iff in Hall.
Qed.

Lemma configured_dec (w : world) : configured w \/ ~ configured w.
Proof.
  destruct (forallb truthy [OPENAI_API_KEY w; GITHUB_TOKEN w; REPO_NAME w;
                            PR_NUMBER w; BASE_REF w]) eqn:Hall.
  - left; now apply configured_iff.
  - right; intros H; apply configured_iff in H; congruence.
Qed.

Lemma exit_code_settled (w : world) (r : outcome unit * state) :
  settled w r -> exit_code (fst r) = 0 \/ exit_code (fst r) = 1.
Proof. intros [[_ H]|[H _]]; [now right | left; now rewrite H]. Qed.


(** *** The text-generation call *)

Lemma getitem_error (v : value) (k : string) (e : exn) :
  getitem v k = Raise e -> e = KeyError (VStr k) \/ e = TypeError.
Proof.
  destruct v; cbn; try (intros H; inversion H; now right).
  destruct (lookup k entries); intros H; inversion H; now left.
Qed.

Lemma getitem_int_error (v : value) (i : Z) (e : exn) :
  getitem_int v i = Raise e ->
  e = KeyError (VInt i) \/ e = IndexError \/ e = TypeError.
Proof.
  destruct v; cbn; intros H.
  1-3: inversion H; auto.
  - destruct (index_at (code_points s) i); inversion H; auto.
  - destruct (index_at items i); inversion H; auto.
  - inversion H; auto.
Qed.

(** Reading the content of a document never raises a [RequestException]. *)
Lemma content_of_error (document : value) (e : exn) :
  content_of document = Raise e ->
  forall msg resp, e <> RequestException msg resp.
Proof.
  unfold content_of. intros H msg resp ->.
  destruct (getitem document "choices") as [choices|e1] eqn:H1;
    [|inversion H; subst; apply getitem_error in H1 as [|]; discriminate].
  destruct (getitem_int choices 0) as [choice|e2] eqn:H2;
    [|inversion H; subst; apply getitem_int_error in H2 as [|[|]]; discriminate].
  destruct (getitem choice "message") as [message|e3] eqn:H3;
    [|inversion H; subst; apply getitem_error in H3 as [|]; discriminate].
  apply getitem_error in H as [|]; discriminate.
Qed.

(** Without its key, [call_openai] posts nothing. *)
Lemma call_openai_no_key (w : world) (system_prompt user_prompt : string) (s : state) :
  truthy (OPENAI_API_KEY w) = false ->
  call_openai w system_prompt user_prompt s
  = (Returned (VStr "Error: OPENAI_API_KEY not set."),
     having_printed s "Error: OPENAI_API_KEY not set.").
Proof. intros Hkey. unfold call_openai. now rewrite Hkey. Qed.

(** A request that fails is answered with the text of the failure. *)
Lemma call_openai_failed (w : world) (system_prompt user_prompt msg : string)
    (s : state) :
  truthy (OPENAI_API_KEY w) = true ->
  request_fails (requests_post w (posts s)) msg ->
  call_openai w system_prompt user_prompt s
  = (Returned (VStr ("Error connecting to AI: " ++ msg)),
     having_printed (requested s (openai_request w system_prompt user_prompt))
       ("Error calling OpenAI: " ++ msg)).
Proof.
  intros Hkey Hfail. unfold call_openai. rewrite Hkey. cbn [negb].
  unfold try_except, bind, post, raise_for_status, response_json, lift, ret.
  inversion Hfail as [msg' resp Ho|r msg' Hstatus Ho|r msg' Hstatus Hbody Ho];
    subst msg'; try rewrite Hstatus; try rewrite Hbody; reflexivity.
Qed.

(** A request that is answered with a document yields what the document
    holds, or the exception that reading it raises. *)
Lemma call_openai_answered (w : world) (system_prompt user_prompt : string)
    (r : response) (document : value) (s : state) :
  truthy (OPENAI_API_KEY w) = true ->
  requests_post w (posts s) = Responded r ->
  http_error_msg r = None -> body r = JsonDocument document ->
  call_openai w system_prompt user_prompt s
  = (match content_of document with
     | Ok content => Returned content
     | Raise e => Raised e
     end, requested s (openai_request w system_prompt user_prompt)).
Proof.
  intros Hkey Ho Hstatus Hbody. unfold call_openai. rewrite Hkey. cbn [negb].
  unfold try_except, bind, post, raise_for_status, response_json, lift, ret.
  rewrite Ho, Hstatus, Hbody.
  pose proof (content_of_error document) as Herr. unfold content_of in *.
  destruct (getitem document "choices") as [choices|e1];
    [|destruct e1; try reflexivity; now destruct (Herr _ eq_refl msg resp)].
  destruct (getitem_int choices 0) as [choice|e2];
    [|destruct e2; try reflexivity; now destruct (Herr _ eq_refl msg resp)].
  destruct (getitem choice "message") as [message|e3];
    [|destruct e3; try reflexivity; now destruct (Herr _ eq_refl msg resp)].
  destruct (getitem message "content") as [content|e4];
    [reflexivity|destruct e4; try reflexivity; now destruct (Herr _ eq_refl msg resp)].
Qed.

(** For every way its request can be [generated] a value, [call_openai]
    returns that value, after one request. *)
Lemma call_openai_generated (w : world) (system_prompt user_prompt : string)
    (v : value) (s : state) :
  truthy (OPENAI_API_KEY w) = true ->
  generated (requests_post w (posts s)) v ->
  fst (call_openai w system_prompt user_prompt s) = Returned v
  /\ posts (snd (call_openai w system_prompt user_prompt s)) = S (posts s).
Proof.
  intros Hkey [(r & document & Ho & Hstatus & Hbody & Hcontent)|(msg & Hfail & ->)].
  - rewrite (call_openai_answered _ _ _ _ _ _ Hkey Ho Hstatus Hbody), Hcontent.
    now split.
  - rewrite (call_openai_failed _ _ _ _ _ Hkey Hfail). now split.
Qed.

(** *** The review *)


(** When both generators return, the review prints the report and posts it. *)
Lemma review_reports (w : world) (diff scanner_results summary : value)
    (fixes : list string) (s : state) :
  fst (get_ai_summary w diff s) = Returned summary ->
  fst (get_ai_fixes w scanner_results (snd (get_ai_summary w diff s)))
  = Returned fixes ->
  fst (review w diff scanner_results s) = Returned tt
  /\ comment_attempted w (snd (review w diff scanner_results s))
       (format_final_comment w summary fixes)
  /\ printed (snd (review w diff scanner_results s))
       (format_final_comment w summary fixes).
Proof.
  intros Hsum Hfix. unfold review, bind.
  destruct (get_ai_summary w diff s) as [o1 s1]; cbn [fst snd] in *; subst o1.
  destruct (get_ai_fixes w scanner_results s1) as [o2 s2]; cbn [fst snd] in *;
    subst o2.
  cbn [print].
  match goal with |- context [post_to_pr w ?c ?s'] =>
    destruct (post_to_pr_returns w c s') as (Hret & Hatt & Hkeep) end.
  repeat split; [exact Hret | exact Hatt |].
  apply Hkeep. cbn. auto.
Qed.

(** When a generator raises, so does the review, before any report. *)
Lemma review_raises (w : world) (diff scanner_results : value) (e : exn) (s : state) :
  fst (get_ai_summary w diff s) = Raised e
  \/ (exists summary, fst (get_ai_summary w diff s) = Returned summary)
     /\ fst (get_ai_fixes w scanner_results (snd (get_ai_summary w diff s)))
        = Raised e ->
  fst (review w diff scanner_results s) = Raised e.
Proof.
  unfold review, bind.
  destruct (get_ai_summary w diff s) as [o1 s1]; cbn [fst snd].
  intros [->|[[summary ->] Hfix]]; [reflexivity|].
  destruct (get_ai_fixes w scanner_results s1) as [o2 s2]; cbn [fst] in Hfix.
  now subst o2.
Qed.

(** The report is its head followed by one of two sections. *)
Lemma format_final_comment_eq (w : world) (summary : value) (fixes : list string) :
  format_final_comment w summary fixes
  = report_head (py_str w summary)
    ++ match fixes with
       | _ :: _ =>
           "### 🚨 Anomalies Detected" ++ nl ++ nl
           ++ "I found the following issues that should be addressed:" ++ nl ++ nl
           ++ join separator fixes
       | [] =>
           "### ✅ No Anomalies Found" ++ nl ++ nl
           ++ "My automated scan found no critical issues. Great job!"
       end.
Proof.
  unfold format_final_comment, report_head, separator.
  destruct fixes; rewrite !append_assoc; reflexivity.
Qed.

Lemma contains_format_summary (w : world) (summary : value) (fixes : list string) :
  contains (format_final_comment w summary fixes) (py_str w summary).
Proof.
  rewrite format_final_comment_eq. unfold report_head.
  match goal with |- contains (?head ++ ?section) _ =>
    exists ("## 🤖 CodeScan-AI Review" ++ nl ++ nl ++ "### 📝 PR Summary" ++ nl),
           (nl ++ nl ++ "---" ++ nl ++ nl ++ section) end.
  rewrite !append_assoc. reflexivity.
Qed.


(** C10: with its configuration present, when the diff command succeeds
    with an empty output the run prints [Could not get PR diff. Exiting.]
    and exits with status 1, which is the line it prints last and the
    status it exits with when the command fails; the Summary Generator is
    not reached: nothing else is printed and no request is posted. *)
Theorem empty_diff_exits (w : world) :
  configured w ->
  subprocess_run w (diff_command w) = Ok "" ->
  run w = (Exited 1, having_printed initial "Could not get PR diff. Exiting.")
  /\ (forall w' msg,
        configured w' ->
        subprocess_run w' (diff_command w') = Raise (CalledProcessError msg) ->
        fst (run w') = fst (run w)
        /\ hd_error (trace (snd (run w'))) = hd_error (trace (snd (run w))))
  /\ ~ printed (snd (run w)) "Getting AI summary for PR diff..."
  /\ posts (snd (run w)) = 0%nat.
Proof.
  intros Hcfg Hdiff.
  assert (Hrun : run w = (Exited 1,
                          having_printed initial "Could not get PR diff. Exiting.")).
  { unfold run. rewrite main_review. apply configured_iff in Hcfg. rewrite Hcfg.
    cbn [negb]. unfold bind at 1. now rewrite get_pr_diff_eq, Hdiff. }
  rewrite Hrun. split; [reflexivity|]. split; [|split].
  - intros w' msg Hcfg' Hfail.
    assert (Hrun' : run w'
              = (Exited 1,
                 having_printed
                   (having_printed initial ("Error getting git diff: " ++ msg))
                   "Could not get PR diff. Exiting.")).
    { unfold run. rewrite main_review. apply configured_iff in Hcfg'.
      rewrite Hcfg'. cbn [negb]. unfold bind at 1.
      now rewrite get_pr_diff_eq, Hfail. }
    rewrite Hrun'. split; reflexivity.
  - intros [Hp|[]]. discriminate.
  - reflexivity.
Qed.

(** *** The Fix Generator *)

Lemma get_ai_fix_eq (w : world) (finding : value) (s : state) :
  get_ai_fix w finding s
  = match finding_fields finding with
    | Ok (path, start_line, end_line, message) =>
        suggest w path start_line end_line message s
    | Raise e => (Raised e, s)
    end.
Proof.
  unfold get_ai_fix, finding_fields, suggest.
  repeat (unfold bind at 1, lift at 1;
          match goal with
          | |- context [getitem ?v ?k] => destruct (getitem v k); [|reflexivity]
          end).
  reflexivity.
Qed.

Lemma get_ai_fixes_eq (w : world) (entries : list (string * value)) (s : state) :
  get_ai_fixes w (VDict entries) s
  = match lookup "results" entries with
    | None =>
        (Returned [],
         having_printed (having_printed s "Analyzing 0 scanner findings...")
           "No valid findings in scanner results.")
    | Some results =>
        match py_len results with
        | Ok count =>
            let s1 := having_printed s
                        ("Analyzing " ++ str_of_int count ++ " scanner findings...") in
            if negb (truthy results) || negb (isinstance_list results) then
              (Returned [], having_printed s1 "No valid findings in scanner results.")
            else for_findings w (items_of results) [] s1
        | Raise e => (Raised e, s)
        end
    end.
Proof.
  unfold get_ai_fixes, bind, lift, print, dict_get, having_printed.
  destruct (lookup "results" entries) as [results|]; [|reflexivity].
  destruct (py_len results); [|reflexivity].
  cbn zeta. destruct (negb (truthy results) || negb (isinstance_list results));
    reflexivity.
Qed.

(** A [results] field without findings yields no suggestion. *)
Lemma get_ai_fixes_without_findings (w : world) (entries : list (string * value))
    (s : state) :
  without_findings (lookup "results" entries) = true ->
  fst (get_ai_fixes w (VDict entries) s) = Returned [].
Proof.
  intros H. rewrite get_ai_fixes_eq.
  destruct (lookup "results" entries) as [[|b|n|text|[|item items]|fields]|];
    cbn in H; try discriminate; cbn [py_len isinstance_list negb]; cbn zeta;
    rewrite ?orb_true_r; reflexivity.
Qed.

(** The first finding whose fields cannot be read stops the generator. *)
Lemma get_ai_fixes_first_raises (w : world) (entries : list (string * value))
    (finding : value) (rest : list value) (e : exn) (s : state) :
  lookup "results" entries = Some (VList (finding :: rest)) ->
  finding_fields finding = Raise e ->
  get_ai_fixes w (VDict entries) s
  = (Raised e,
     having_printed s
       ("Analyzing " ++ str_of_int (Z.of_nat (List.length (finding :: rest)))
        ++ " scanner findings...")).
Proof.
  intros Hresults Hfields. rewrite get_ai_fixes_eq, Hresults.
  cbn [py_len truthy isinstance_list negb orb items_of for_findings]. cbn zeta.
  unfold bind at 1. now rewrite get_ai_fix_eq, Hfields.
Qed.

(** For a finding of the schema whose file is available, the suggestion is
    made of the header and of what the call returns. *)
Lemma suggest_returns (w : world) (path : string) (start_line end_line : Z)
    (message : value) (s : state) :
  snippet_available w path ->
  (truthy (OPENAI_API_KEY w) = true ->
   exists v, generated (requests_post w (posts s)) v) ->
  exists reply s',
    suggest w (VStr path) (VInt start_line) (VInt end_line) message s
    = (Returned (suggestion_header w (VStr path) (VInt start_line) (VInt end_line)
                 ++ nl ++ nl ++ reply), s')
    /\ (posts s <= posts s' <= S (posts s))%nat.
Proof.
  intros Hfile Hgen. unfold suggest. unfold bind at 1.
  assert (Hsnip : exists text,
             get_code_snippet w (VStr path) (VInt start_line) (VInt end_line) s
             = (Returned (VStr text), s)).
  { destruct Hfile as [[lines Hopen]|Hopen].
    - eexists. now apply get_code_snippet_readable with (lines := lines).
    - eexists. now rewrite (get_code_snippet_unopened w (VStr path) _ _
                              FileNotFoundError). }
  destruct Hsnip as [text ->]. unfold bind at 1.
  destruct (truthy (OPENAI_API_KEY w)) eqn:Hkey.
  - destruct (Hgen eq_refl) as [v Hv].
    match goal with |- context [call_openai w ?sp ?up s] =>
      destruct (call_openai_generated w sp up v s Hkey Hv) as [Hret Hposts];
      destruct (call_openai w sp up s) as [o s'] end.
    cbn [fst snd] in *. subst o. exists (py_str w v), s'. split; [reflexivity|lia].
  - match goal with |- context [call_openai w ?sp ?up s] =>
      rewrite (call_openai_no_key w sp up s Hkey) end.
    eexists _, _. split; [reflexivity|cbn; lia].
Qed.

Lemma for_findings_returns (w : world) (findings : list value)
    (ai_fixes : list string) (s : state) :
  Forall (fun finding =>
            exists path start_line end_line message,
              has_fields finding path start_line end_line message
              /\ snippet_available w path) findings ->
  (forall n, (posts s <= n < posts s + List.length findings)%nat ->
             exists v, generated (requests_post w n) v) ->
  exists fixes,
    fst (for_findings w findings ai_fixes s) = Returned (ai_fixes ++ fixes)%list
    /\ Forall2 (suggestion_for w) findings fixes.
Proof.
  revert ai_fixes s.
  induction findings as [|finding rest IH]; intros ai_fixes s Hall Hgen.
  - exists []. cbn. rewrite app_nil_r. now split.
  - inversion Hall as [|? ? (path & a & b & message & Hfields & Hfile) Hrest]; subst.
    cbn [for_findings]. unfold bind at 1. rewrite get_ai_fix_eq, Hfields.
    destruct (suggest_returns w path a b message s Hfile) as (reply & s' & -> & Hp).
    { intros _. apply Hgen. cbn [List.length]. lia. }
    destruct (IH (ai_fixes
                  ++ [(suggestion_header w (VStr path) (VInt a) (VInt b)
                       ++ nl ++ nl ++ reply)%string])%list s' Hrest)
      as (fixes & Hret & Hfor).
    { intros n Hn. apply Hgen. cbn [List.length]. lia. }
    eexists (_ :: fixes). rewrite Hret, <- app_assoc. split; [reflexivity|].
    constructor; [|exact Hfor].
    exists path, a, b, message. split; [exact Hfields|].
    exists reply. now rewrite !append_assoc.
Qed.

(** C2 (as amended): for a non-empty list of findings of the schema, when
    the file of every finding either can be read or does not exist and
    every request of the run is either answered with a document that holds
    the generated content or fails as a [RequestException], the Fix
    Generator returns as many suggestions as there are findings, the n-th
    one opening with the header of the n-th finding; and for an empty list
    it returns no suggestion, with no condition. *)
Theorem suggestions_follow_findings (w : world) (entries : list (string * value))
    (s : state) :
  (forall findings,
     lookup "results" entries = Some (VList findings) ->
     findings <> [] ->
     Forall (fun finding =>
               exists path start_line end_line message,
                 has_fields finding path start_line end_line message
                 /\ snippet_available w path) findings ->
     (forall n, (posts s <= n < posts s + List.length findings)%nat ->
                exists v, generated (requests_post w n) v) ->
     exists fixes,
       fst (get_ai_fixes w (VDict entries) s) = Returned fixes
       /\ List.length fixes = List.length findings
       /\ Forall2 (suggestion_for w) findings fixes)
  /\ (lookup "results" entries = Some (VList []) ->
      fst (get_ai_fixes w (VDict entries) s) = Returned []).
Proof.
  split.
  - intros findings Hresults Hne Hall Hgen.
    rewrite get_ai_fixes_eq, Hresults. cbn [py_len]. cbn zeta.
    destruct findings as [|finding rest]; [now destruct Hne|].
    cbn [truthy isinstance_list negb orb items_of].
    match goal with |- context [for_findings w _ [] ?s1] =>
      destruct (for_findings_returns w (finding :: rest) [] s1 Hall Hgen)
        as (fixes & Hret & Hfor) end.
    exists fixes. repeat split; [exact Hret | | exact Hfor].
    symmetry. exact (Forall2_length Hfor).
  - intros Hresults. apply get_ai_fixes_without_findings. now rewrite Hresults.
Qed.


(** C9: there is a findings document, a non-empty list whose one record
    holds [path], [start.line] and [end.line] and lacks [extra.message], on
    which the Fix Generator raises [KeyError] in every world and state,
    having printed one line; a run that loads it ends with an uncaught
    exception and status 1 before the banner of the report is printed and
    before any comment is posted, and the exception is that [KeyError]
    whenever the Summary Generator returned. *)
Theorem missing_field_aborts_run :
  exists finding,
    getitem finding "path" = Ok (VStr "a.py")
    /\ finding_fields finding = Raise (KeyError (VStr "message"))
    /\ forall w,
         let scanner_results := VDict [("results", VList [finding])] in
         (forall s,
            get_ai_fixes w scanner_results s
            = (Raised (KeyError (VStr "message")),
               having_printed s "Analyzing 1 scanner findings..."))
         /\ forall diff,
              configured w ->
              subprocess_run w (diff_command w) = Ok diff -> diff <> "" ->
              open_json_load w SCANNER_RESULTS_FILE = Ok scanner_results ->
              (exists e, fst (run w) = Raised e)
              /\ exit_code (fst (run w)) = 1
              /\ ~ printed (snd (run w)) final_banner
              /\ (forall comment, ~ comment_attempted w (snd (run w)) comment)
              /\ (forall summary,
                    fst (get_ai_summary w (VStr diff) initial) = Returned summary ->
                    fst (run w) = Raised (KeyError (VStr "message"))).
Proof.
  exists finding_without_message. split; [reflexivity|]. split; [reflexivity|].
  intros w scanner_results.
  assert (Hfix : forall s,
             get_ai_fixes w scanner_results s
             = (Raised (KeyError (VStr "message")),
                having_printed s "Analyzing 1 scanner findings...")).
  { intros s.
    exact (get_ai_fixes_first_raises w
             [("results", VList [finding_without_message])]
             finding_without_message [] _ s eq_refl eq_refl). }
  split; [exact Hfix|].
  intros diff Hcfg Hdiff Hne Hload.
  assert (Hraise : exists e, fst (run w) = Raised e
                     /\ (forall summary,
                           fst (get_ai_summary w (VStr diff) initial)
                           = Returned summary ->
                           e = KeyError (VStr "message"))).
  { rewrite (run_is_review w diff scanner_results) by (assumption || reflexivity).
    destruct (quiet_get_ai_summary w (VStr diff) initial) as [_ Hexit];
      [constructor|].
    destruct (fst (get_ai_summary w (VStr diff) initial)) as [summary|e|code]
      eqn:Hsum.
    - exists (KeyError (VStr "message")). split; [|reflexivity].
      apply review_raises. right. split; [now exists summary|]. now rewrite Hfix.
    - exists e. split; [|discriminate]. apply review_raises. now left.
    - now destruct (Hexit code). }
  destruct Hraise as (e & Hrun & Hsum).
  destruct (run_settled w) as [[Hun Hexit]|[Hret _]]; [|congruence].
  repeat split.
  - now exists e.
  - exact Hexit.
  - now apply unreported_not_printed with (w := w).
  - intros comment. now apply unreported_not_attempted.
  - intros summary Hs. rewrite Hrun. f_equal. now apply (Hsum summary).
Qed.

(** *** The Report Formatter *)

Lemma append_empty_r (a : string) : (a ++ "")%string = a.
Proof. induction a as [|ch a IH]; cbn; [reflexivity | now rewrite IH]. Qed.

Lemma contains_refl (a : string) : contains a a.
Proof. exists "", "". cbn. now rewrite append_empty_r. Qed.

Lemma contains_after (a b sub : string) : contains b sub -> contains (a ++ b) sub.
Proof.
  intros (before & after & ->). exists (a ++ before), after.
  now rewrite !append_assoc.
Qed.

Lemma contains_before (a b sub : string) : contains a sub -> contains (a ++ b) sub.
Proof.
  intros (before & after & ->). exists before, (after ++ b).
  now rewrite !append_assoc.
Qed.

(** [join] puts the separator between the parts and nowhere else. *)
Lemma join_separated (sep : string) (parts : list string) :
  join sep parts = separated sep parts.
Proof.
  unfold join. destruct parts as [|first rest]; [reflexivity|].
  revert first; induction rest as [|second rest IH]; intros first.
  - cbn. now rewrite append_empty_r.
  - change (String.concat sep (first :: second :: rest))
      with (first ++ sep ++ String.concat sep (second :: rest)).
    now rewrite IH.
Qed.

Lemma separated_cons (sep first second : string) (rest : list string) :
  separated sep (first :: second :: rest)
  = first ++ sep ++ separated sep (second :: rest).
Proof. reflexivity. Qed.

Lemma separated_contains_part (sep : string) (parts : list string) (part : string) :
  In part parts -> contains (separated sep parts) part.
Proof.
  induction parts as [|first [|second rest] IH]; intros Hin.
  - destruct Hin.
  - destruct Hin as [->|[]]. cbn. rewrite append_empty_r. apply contains_refl.
  - rewrite separated_cons. destruct Hin as [->|Hin].
    + apply contains_before, contains_refl.
    + now apply contains_after, contains_after, IH.
Qed.

Lemma separated_contains_neighbours (sep : string) (before after : list string)
    (a b : string) :
  contains (separated sep (before ++ a :: b :: after)) (a ++ sep ++ b).
Proof.
  induction before as [|first before IH].
  - cbn [app]. rewrite separated_cons.
    destruct after as [|third after].
    + cbn. rewrite append_empty_r. apply contains_refl.
    + rewrite separated_cons. exists "", (sep ++ separated sep (third :: after)).
      cbn. now rewrite !append_assoc.
  - cbn [app]. destruct (before ++ a :: b :: after)%list as [|second rest] eqn:Hrest.
    + now destruct before.
    + rewrite separated_cons. now apply contains_after, contains_after.
Qed.

(** C8: the report is a function of the summary and the suggestions alone.
    It opens with the head that holds the summary verbatim. With
    suggestions, the head is followed by the [Anomalies Detected] section,
    which lists every suggestion in order, each two neighbours separated by
    a blank line, a rule and a blank line; without suggestions, it is
    followed by the fixed [No Anomalies Found] message. *)
Theorem report_template (w : world) (summary : string) (fixes : list string) :
  let report := format_final_comment w (VStr summary) fixes in
  (forall w', format_final_comment w' (VStr summary) fixes = report)
  /\ starts_with report (report_head summary)
  /\ contains report summary
  /\ (fixes <> [] ->
      report = report_head summary
               ++ "### 🚨 Anomalies Detected" ++ nl ++ nl
               ++ "I found the following issues that should be addressed:"
               ++ nl ++ nl
               ++ separated separator fixes
      /\ contains report "Anomalies Detected"
      /\ (forall suggestion, In suggestion fixes -> contains report suggestion)
      /\ (forall before a b after,
            fixes = (before ++ a :: b :: after)%list ->
            contains report (a ++ separator ++ b)))
  /\ (fixes = [] ->
      report = report_head summary
               ++ "### ✅ No Anomalies Found" ++ nl ++ nl
               ++ "My automated scan found no critical issues. Great job!"
      /\ contains report "No Anomalies Found").
Proof.
  intros report. unfold report.
  split; [reflexivity|].
  split; [rewrite format_final_comment_eq; now eexists|].
  split; [exact (contains_format_summary w (VStr summary) fixes)|].
  rewrite format_final_comment_eq. cbn [py_str]. split.
  - intros Hne. destruct fixes as [|first rest]; [now destruct Hne|].
    rewrite join_separated. split; [reflexivity|]. split; [|split].
    + exists (report_head summary ++ "### 🚨 "),
             (nl ++ nl
              ++ "I found the following issues that should be addressed:"
              ++ nl ++ nl ++ separated separator (first :: rest)).
      now rewrite !append_assoc.
    + intros suggestion Hin. do 7 apply contains_after.
      now apply separated_contains_part.
    + intros before a b after ->. do 7 apply contains_after.
      apply separated_contains_neighbours.
  - intros ->. split; [reflexivity|].
    exists (report_head summary ++ "### ✅ "),
           (nl ++ nl ++ "My automated scan found no critical issues. Great job!").
    now rewrite !append_assoc.
Qed.

(** *** The claims on the sample worlds *)

Lemma sample_configured : configured sample_world.
Proof. apply configured_iff. reflexivity. Qed.



(** C2, counterexample: one finding of the schema whose file exists and may
    not be read; the Fix Generator raises what [open] raised and returns no
    suggestion. *)
Lemma unreadable_source_stops_the_fix_generator :
  has_fields (finding_at "secrets.py" 1 1 "hardcoded secret") "secrets.py" 1 1
    (VStr "hardcoded secret")
  /\ open_readlines locked_scan_world "secrets.py"
     = Raise (OtherError "PermissionError")
  /\ fst (get_ai_fixes locked_scan_world
            (scan_of [finding_at "secrets.py" 1 1 "hardcoded secret"]) initial)
     = Raised (OtherError "PermissionError").
Proof. repeat split. Qed.

(** C2, witness: the scan of [a.py]. *)
Lemma scanned_finding_gets_its_suggestion :
  exists fixes,
    fst (get_ai_fixes scanned_world
           (scan_of [finding_at "a.py" 3 4 "hardcoded secret"]) initial)
    = Returned fixes
    /\ List.length fixes = 1%nat
    /\ Forall2 (suggestion_for scanned_world)
         [finding_at "a.py" 3 4 "hardcoded secret"] fixes.
Proof.
  apply (proj1 (suggestions_follow_findings scanned_world
                  [("version", VStr "1.90.0");
                   ("results", VList [finding_at "a.py" 3 4 "hardcoded secret"])]
                  initial)
           [finding_at "a.py" 3 4 "hardcoded secret"]).
  - reflexivity.
  - discriminate.
  - constructor; [|constructor].
    exists "a.py", 3, 4, (VStr "hardcoded secret"). split; [reflexivity|].
    left. exists a_py. reflexivity.
  - intros n _. eexists. left. eexists _, _. repeat split.
Defined.

(** C3, counterexample: lines 6 to 9 of the five lines of [a.py]; the
    snippet is empty, and the content of the file is not. *)
Lemma snippet_beyond_last_line_is_not_the_file :
  open_readlines sample_world "a.py" = Ok a_py
  /\ Z.of_nat (List.length a_py) < 6
  /\ get_code_snippet sample_world (VStr "a.py") (VInt 6) (VInt 9) initial
     = (Returned (VStr ""), initial)
  /\ join "" a_py <> "".
Proof. repeat split; discriminate. Qed.

(** C3, witness: the same range of [a.py]. *)
Lemma snippet_beyond_last_line_sample :
  get_code_snippet sample_world (VStr "a.py") (VInt 6) (VInt 9) initial
  = (Returned (VStr ""), initial).
Proof.
  apply (snippet_beyond_last_line_is_empty sample_world "a.py" a_py).
  - reflexivity.
  - reflexivity.
Defined.




(** C6, counterexample: the range from -2 to -1 of [a.py] lies before the
    first line, so its clamped text is empty; the snippet is the first four
    lines of the file. *)
Lemma negative_end_counts_from_the_last_line :
  open_readlines sample_world "a.py" = Ok a_py
  /\ clamped_range_text a_py (-2) (-1) = ""
  /\ get_code_snippet sample_world (VStr "a.py") (VInt (-2)) (VInt (-1)) initial
     = (Returned (VStr (join "" (firstn 4 a_py))), initial)
  /\ join "" (firstn 4 a_py) <> "".
Proof. repeat split; discriminate. Qed.

(** C6, witness: lines 0 to 2 of [a.py] are its first two lines. *)
Lemma clamped_range_sample :
  get_code_snippet sample_world (VStr "a.py") (VInt 0) (VInt 2) initial
  = (Returned (VStr ("import os" ++ nl ++ nl)), initial).
Proof.
  apply (snippet_is_clamped_range sample_world "a.py" a_py 0 2 initial).
  - reflexivity.
  - discriminate.
Defined.

(** C7, counterexample: [secrets.py] cannot be opened, for want of
    permission; the snippet extraction raises. *)
Lemma unreadable_file_is_raised :
  open_readlines locked_world "secrets.py" = Raise (OtherError "PermissionError")
  /\ get_code_snippet locked_world (VStr "secrets.py") (VInt 1) (VInt 1) initial
     = (Raised (OtherError "PermissionError"), initial).
Proof. split; reflexivity. Qed.

(** C7, witness: [b.py] is not in the checkout. *)
Lemma missing_file_sample :
  get_code_snippet sample_world (VStr "b.py") (VInt 3) (VInt 4) initial
  = (Returned (VStr "Code snippet for b.py not found."), initial).
Proof.
  apply (proj1 (snippet_of_missing_file sample_world "b.py" (VInt 3) (VInt 4)
                  initial eq_refl)).
Defined.

(** C8, witness: a report with two suggestions. *)
Lemma report_of_two_suggestions :
  contains (format_final_comment sample_world (VStr "Adds a greeting.")
              ["first"; "second"])
    ("first" ++ separator ++ "second")
  /\ contains (format_final_comment sample_world (VStr "Adds a greeting.") [])
       "No Anomalies Found".
Proof.
  split.
  - apply (proj1 (proj2 (proj2 (proj2
             (report_template sample_world "Adds a greeting." ["first"; "second"])))))
      with (before := []) (after := []).
    + discriminate.
    + reflexivity.
  - apply (proj2 (proj2 (proj2 (proj2
             (report_template sample_world "Adds a greeting." []))))).
    reflexivity.
Defined.

(** C10, witness: the working tree is identical to the base reference. *)
Lemma unchanged_tree_exits :
  run unchanged_world
  = (Exited 1, having_printed initial "Could not get PR diff. Exiting.").
Proof.
  apply (proj1 (empty_diff_exits unchanged_world
                  (proj2 (configured_iff unchanged_world) eq_refl) eq_refl)).
Defined.

(** *** Further properties of the script *)

(** X1: when [results] is present and is [null], a boolean or a number,
    the Fix Generator raises [TypeError] from the [len] of its first line,
    before the check that [results] is a list and before it prints. *)
Theorem results_without_length_raise (w : world) (entries : list (string * value))
    (results : value) (s : state) :
  lookup "results" entries = Some results ->
  without_length results = true ->
  get_ai_fixes w (VDict entries) s = (Raised TypeError, s).
Proof.
  intros Hresults Hlen. rewrite get_ai_fixes_eq, Hresults.
  destruct results; try discriminate; reflexivity.
Qed.

(** X1, witness: [null] in place of the list. *)
Lemma null_results_raise :
  get_ai_fixes sample_world (VDict null_results) initial = (Raised TypeError, initial).
Proof.
  apply (results_without_length_raise sample_world null_results VNone initial).
  - reflexivity.
  - reflexivity.
Defined.

(** X2: a findings file that decodes to a falsy value, such as the empty
    object, ends the run like a file that cannot be loaded: one diagnostic
    and status 1. *)
Theorem falsy_document_ends_the_run (w : world) (diff : string) (document : value) :
  configured w ->
  subprocess_run w (diff_command w) = Ok diff -> diff <> "" ->
  open_json_load w SCANNER_RESULTS_FILE = Ok document ->
  truthy document = false ->
  run w = (Exited 1,
           having_printed initial "Could not load scanner results. Exiting.").
Proof.
  intros Hcfg Hdiff Hne Hload Hfalsy. unfold run. rewrite main_review.
  apply configured_iff in Hcfg. rewrite Hcfg. cbn [negb].
  unfold bind at 1. rewrite get_pr_diff_eq, Hdiff. cbn [truthy].
  destruct (String.eqb_spec diff "") as [->|_]; [now destruct Hne|]. cbn [negb].
  unfold bind at 1. now rewrite load_scanner_results_eq, Hload, Hfalsy.
Qed.

(** X2, witness: the empty object. *)
Lemma empty_object_ends_the_run :
  run empty_scan_world
  = (Exited 1, having_printed initial "Could not load scanner results. Exiting.").
Proof.
  apply (falsy_document_ends_the_run empty_scan_world "+print('hi')" (VDict [])).
  - apply configured_iff. reflexivity.
  - reflexivity.
  - discriminate.
  - reflexivity.
  - reflexivity.
Defined.

(** X3: when the collaboration endpoint answers with a 4xx or 5xx status,
    [post_to_pr] prints the line [Error posting to GitHub: <message>] and
    nothing more, since the response of an [HTTPError] is falsy; the body of
    the response is not printed, and the call returns. *)
Theorem error_response_body_is_not_printed (w : world) (comment_body : string)
    (r : response) (msg : string) (s : state) :
  requests_post w (posts s) = Responded r ->
  http_error_msg r = Some msg ->
  post_to_pr w comment_body s
  = (Returned tt,
     having_printed (requested s (github_request w comment_body))
       ("Error posting to GitHub: " ++ msg)).
Proof.
  intros Ho Hstatus.
  unfold post_to_pr, try_except, bind, post, raise_for_status, response_ok,
    lift, ret, print.
  rewrite Ho, Hstatus. cbn. now rewrite Hstatus.
Qed.

(** X3, witness: the endpoint answers 403. *)
Lemma forbidden_comment_is_not_explained :
  post_to_pr refusing_world "report" initial
  = (Returned tt,
     having_printed (requested initial (github_request refusing_world "report"))
       "Error posting to GitHub: 403 Client Error: Forbidden for url: https://api.github.com/repos/octo/demo/issues/7/comments").
Proof.
  apply (error_response_body_is_not_printed refusing_world "report" forbidden).
  - reflexivity.
  - reflexivity.
Defined.

(** On the scan that reports lines 3 to 4 of [a.py], the Fix Generator
    returns exactly one suggestion, made of the header of the finding, a
    blank line and the generated text. *)
Example sample_scan_suggestion :
  fst (get_ai_fixes scanned_world
         (scan_of [finding_at "a.py" 3 4 "hardcoded secret"]) initial)
  = Returned ["**File: `a.py` (Lines 3-4)**" ++ nl ++ nl ++ "Looks fine."].
Proof. reflexivity. Qed.

(** X5: the exit status of a run is 0 or 1. *)
Theorem exit_status_is_0_or_1 (w : world) :
  exit_code (fst (run w)) = 0 \/ exit_code (fst (run w)) = 1.
Proof. apply (exit_code_settled w), run_settled. Qed.

(** X4: on a findings document that is not a JSON object, the Fix
    Generator raises [AttributeError] at once. *)
Theorem non_object_document_raises (w : world) (document : value) (s : state) :
  not_an_object document = true ->
  get_ai_fixes w document s = (Raised AttributeError, s).
Proof. destruct document; try discriminate; reflexivity. Qed.

(** X4, witness: a list in place of the object. *)
Lemma list_document_raises :
  get_ai_fixes sample_world (VList [finding_at "a.py" 3 4 "hardcoded secret"])
    initial
  = (Raised AttributeError, initial).
Proof.
  apply (non_object_document_raises sample_world).
  reflexivity.
Defined.

(** *** What every step of a run keeps *)

Lemma preserves_ret (I : state -> Prop) {A : Type} (a : A) : preserves I (ret a).
Proof. intros s Hs; exact Hs. Qed.

Lemma preserves_lift (I : state -> Prop) {A : Type} (r : result A) :
  preserves I (lift r).
Proof. intros s Hs; destruct r; exact Hs. Qed.

Lemma preserves_sys_exit (I : state -> Prop) {A : Type} (code : Z) :
  preserves I (@sys_exit A code).
Proof. intros s Hs; exact Hs. Qed.

Lemma preserves_bind (I : state -> Prop) {A B : Type} (m : M A) (k : A -> M B) :
  preserves I m -> (forall a, preserves I (k a)) -> preserves I (bind m k).
Proof.
  intros Hm Hk s Hs. unfold bind. specialize (Hm s Hs).
  destruct (m s) as [[a|e|code] s']; cbn [snd] in *;
    [now apply Hk | exact Hm | exact Hm].
Qed.

Lemma preserves_try_except (I : state -> Prop) {A : Type} (body : M A)
    (handler : exn -> option (M A)) :
  preserves I body -> (forall e h, handler e = Some h -> preserves I h) ->
  preserves I (try_except body handler).
Proof.
  intros Hb Hh s Hs. unfold try_except. specialize (Hb s Hs).
  destruct (body s) as [[a|e|code] s']; cbn [snd] in *; try exact Hb.
  destruct (handler e) as [h|] eqn:He; [exact (Hh e h He s' Hb) | exact Hb].
Qed.

Lemma preserves_print (w : world) (I : state -> Prop) (line : string) :
  stable w I -> preserves I (print line).
Proof. intros (Hprint & _) s Hs. now apply Hprint. Qed.

Lemma preserves_post (w : world) (I : state -> Prop) (target : string)
    (headers : list (string * string)) (json : value) :
  (forall s, I s -> I (requested s (ERequest target headers json))) ->
  preserves I (post w target headers json).
Proof.
  intros Hreq s Hs. unfold post.
  destruct (requests_post w (posts s)); cbn [snd]; now apply Hreq.
Qed.

Lemma preserves_raise_for_status (I : state -> Prop) (r : response) :
  preserves I (raise_for_status r).
Proof.
  unfold raise_for_status. destruct (http_error_msg r);
    [apply preserves_lift | apply preserves_ret].
Qed.

Lemma preserves_response_json (I : state -> Prop) (r : response) :
  preserves I (response_json r).
Proof.
  unfold response_json. destruct (body r);
    [apply preserves_ret | apply preserves_lift].
Qed.

(** Composes the lemmas above along the structure of a computation. *)
Ltac preserves_steps H :=
  repeat first
    [ apply preserves_ret
    | apply preserves_lift
    | apply preserves_sys_exit
    | apply preserves_raise_for_status
    | apply preserves_response_json
    | eapply preserves_print; exact H
    | apply preserves_bind; [|intros ?] ].

Lemma preserves_call_openai (w : world) (I : state -> Prop)
    (system_prompt user_prompt : string) :
  stable w I -> preserves I (call_openai w system_prompt user_prompt).
Proof.
  intros H. unfold call_openai. destruct (negb (truthy (OPENAI_API_KEY w))).
  - preserves_steps H.
  - apply preserves_try_except.
    + preserves_steps H. apply preserves_post.
      intros s Hs. exact (proj1 (proj2 H) system_prompt user_prompt s Hs).
    + intros e h He. destruct e; inversion He; subst. preserves_steps H.
Qed.

Lemma preserves_get_pr_diff (w : world) (I : state -> Prop) :
  stable w I -> preserves I (get_pr_diff w).
Proof.
  intros H. unfold get_pr_diff. apply preserves_try_except; [preserves_steps H|].
  intros e h He. destruct e; inversion He; subst. preserves_steps H.
Qed.

Lemma preserves_load_scanner_results (w : world) (I : state -> Prop)
    (filepath : string) :
  stable w I -> preserves I (load_scanner_results w filepath).
Proof.
  intros H. unfold load_scanner_results.
  apply preserves_try_except; [preserves_steps H|].
  intros e h He. destruct e; inversion He; subst; preserves_steps H.
Qed.

(** Snippet extraction has no effect on the state. *)
Lemma get_code_snippet_state (w : world) (file_path start_line end_line : value)
    (s : state) :
  snd (get_code_snippet w file_path start_line end_line s) = s.
Proof.
  unfold get_code_snippet, try_except, bind, lift, ret.
  destruct (py_open_readlines w file_path) as [lines|e]; cbn [snd].
  - destruct (py_sub start_line 1) as [n|e]; cbn [snd]; [|destruct e; reflexivity].
    destruct (py_min (Z.of_nat (List.length lines)) end_line) as [m|e];
      [reflexivity | destruct e; reflexivity].
  - destruct e; reflexivity.
Qed.

Lemma preserves_get_code_snippet (w : world) (I : state -> Prop)
    (file_path start_line end_line : value) :
  preserves I (get_code_snippet w file_path start_line end_line).
Proof. intros s Hs. now rewrite get_code_snippet_state. Qed.

Lemma preserves_get_ai_summary (w : world) (I : state -> Prop) (diff_content : value) :
  stable w I -> preserves I (get_ai_summary w diff_content).
Proof.
  intros H. unfold get_ai_summary. preserves_steps H.
  now apply preserves_call_openai.
Qed.

Lemma preserves_get_ai_fix (w : world) (I : state -> Prop) (finding : value) :
  stable w I -> preserves I (get_ai_fix w finding).
Proof.
  intros H. unfold get_ai_fix. preserves_steps H.
  - apply preserves_get_code_snippet.
  - now apply preserves_call_openai.
Qed.

Lemma preserves_for_findings (w : world) (I : state -> Prop)
    (findings : list value) (ai_fixes : list string) :
  stable w I -> preserves I (for_findings w findings ai_fixes).
Proof.
  intros H. revert ai_fixes.
  induction findings as [|finding rest IH]; intros ai_fixes; cbn.
  - apply preserves_ret.
  - apply preserves_bind; [now apply preserves_get_ai_fix | intros x; apply IH].
Qed.

Lemma preserves_get_ai_fixes (w : world) (I : state -> Prop) (scanner_results : value) :
  stable w I -> preserves I (get_ai_fixes w scanner_results).
Proof.
  intros H. unfold get_ai_fixes. preserves_steps H.
  match goal with |- preserves _ (if ?c then _ else _) => destruct c end.
  - preserves_steps H.
  - now apply preserves_for_findings.
Qed.

Lemma preserves_post_to_pr (w : world) (I : state -> Prop) (comment_body : string) :
  stable w I -> preserves I (post_to_pr w comment_body).
Proof.
  intros H. unfold post_to_pr. apply preserves_try_except.
  - preserves_steps H. apply preserves_post.
    intros s Hs. exact (proj2 (proj2 H) comment_body s Hs).
  - intros e h He. destruct e; inversion He; subst. preserves_steps H.
    destruct resp as [r|]; [destruct (response_ok r)|]; preserves_steps H.
Qed.

Lemma preserves_main (w : world) (I : state -> Prop) :
  stable w I -> preserves I (main w).
Proof.
  intros H. unfold main.
  destruct (negb (forallb truthy _)); [preserves_steps H|].
  apply preserves_bind; [now apply preserves_get_pr_diff|]. intros diff.
  destruct (negb (truthy diff)); [preserves_steps H|].
  apply preserves_bind; [now apply preserves_load_scanner_results|].
  intros scanner_results.
  destruct (negb (truthy scanner_results)); [preserves_steps H|].
  apply preserves_bind; [now apply preserves_get_ai_summary|]. intros ai_summary.
  apply preserves_bind; [now apply preserves_get_ai_fixes|]. intros ai_fixes.
  preserves_steps H. now apply preserves_post_to_pr.
Qed.

(** A property that the three visible steps keep holds at the end of every
    run in which it held at the start. *)
Lemma run_keeps (w : world) (I : state -> Prop) :
  stable w I -> I initial -> I (snd (run w)).
Proof. intros H H0. exact (preserves_main w I H initial H0). Qed.

Lemma posts_count_requests (w : world) :
  posts (snd (run w)) = List.length (requests_in (trace (snd (run w)))).
Proof.
  apply (run_keeps w (fun s => posts s = List.length (requests_in (trace s)))).
  - repeat split; intros; unfold requests_in, openai_request, github_request in *;
      cbn; congruence.
  - reflexivity.
Qed.

(** X6: every request of a run is one of the script's two requests: a
    request to the text-generation endpoint that carries the key of that
    service, a model and two messages, or a comment posted to the
    collaboration endpoint with that endpoint's token. No request goes to
    another address, and a request to the text-generation endpoint carries
    the key of that service and no other credential. *)
Theorem requests_are_the_two_kinds (w : world) :
  Forall (sent_by_script w) (trace (snd (run w)))
  /\ (forall target headers json,
        In (ERequest target headers json) (trace (snd (run w))) ->
        target = OPENAI_API_URL \/ target = GITHUB_API_URL w)
  /\ (forall headers json,
        In (ERequest OPENAI_API_URL headers json) (trace (snd (run w))) ->
        headers = [("Authorization", "Bearer " ++ py_str w (OPENAI_API_KEY w));
                   ("Content-Type", "application/json")]).
Proof.
  assert (H : Forall (sent_by_script w) (trace (snd (run w)))).
  { apply (run_keeps w (fun s => Forall (sent_by_script w) (trace s))).
    - repeat split; intros; constructor; try assumption.
      + exact I.
      + left. now exists system_prompt, user_prompt.
      + right. now exists comment.
    - constructor. }
  split; [exact H|]. rewrite Forall_forall in H. split.
  - intros target headers json Hin.
    destruct (H _ Hin) as [(sp & up & He)|(c & He)];
      unfold openai_request, github_request in He; inversion He; auto.
  - intros headers json Hin.
    destruct (H _ Hin) as [(sp & up & He)|(c & He)];
      unfold openai_request, github_request in He.
    + congruence.
    + exfalso. apply (openai_is_not_github w). congruence.
Qed.

(** The review never calls [sys.exit]. *)
Lemma review_never_exits (w : world) (diff scanner_results : value) (s : state)
    (code : Z) :
  unreported w s -> fst (review w diff scanner_results s) <> Exited code.
Proof.
  intros Hs. unfold review, bind.
  destruct (quiet_get_ai_summary w diff s Hs) as [Hs1 Hexit1].
  destruct (get_ai_summary w diff s) as [[summary|e|c] s1]; cbn [fst snd] in *;
    [|discriminate|now destruct (Hexit1 c)].
  destruct (quiet_get_ai_fixes w scanner_results s1 Hs1) as [_ Hexit2].
  destruct (get_ai_fixes w scanner_results s1) as [[fixes|e|c] s2];
    cbn [fst snd] in *; [|discriminate|now destruct (Hexit2 c)].
  cbn [print].
  match goal with |- context [post_to_pr w ?c ?s'] =>
    rewrite (proj1 (post_to_pr_returns w c s')) end.
  discriminate.
Qed.

Lemma run_exited (w : world) (code : Z) (s : state) :
  run w = (Exited code, s) ->
  code = 1
  /\ requests_in (trace s) = []
  /\ exists line, hd_error (trace s) = Some (EPrint line) /\ In line exit_diagnostics.
Proof.
  assert (Hexit : forall line s0,
            In line exit_diagnostics -> requests_in (trace s0) = [] ->
            (print line ;; @sys_exit unit 1) s0 = (Exited code, s) ->
            code = 1 /\ requests_in (trace s) = []
            /\ exists line, hd_error (trace s) = Some (EPrint line)
                            /\ In line exit_diagnostics).
  { intros line s0 Hline Hs0 H. cbn in H. inversion H; subst.
    repeat split; [exact Hs0|]. exists line. now split. }
  unfold run. rewrite main_review.
  destruct (negb (forallb truthy _)).
  { apply Hexit; [cbn; auto | reflexivity]. }
  unfold bind at 1. rewrite get_pr_diff_eq.
  destruct (subprocess_run w (diff_command w)) as [stdout|e].
  - destruct (negb (truthy (VStr stdout))).
    { apply Hexit; [cbn; auto | reflexivity]. }
    unfold bind at 1. rewrite load_scanner_results_eq.
    destruct (open_json_load w SCANNER_RESULTS_FILE) as [document|e].
    + destruct (negb (truthy document)).
      { apply Hexit; [cbn; auto | reflexivity]. }
      intros H. exfalso.
      apply (review_never_exits w (VStr stdout) document initial code);
        [constructor | now rewrite H].
    + destruct e; try discriminate; cbn [truthy negb];
        (apply Hexit; [cbn; auto | reflexivity]).
  - destruct e; try discriminate. cbn [truthy negb].
    apply Hexit; [cbn; auto | reflexivity].
Qed.

(** X7: when [sys.exit] ends a run, the status is 1, the run has posted no
    request at all, neither to the text-generation service nor to the
    collaboration endpoint, and the last line it printed is one of the three
    diagnostics of [main]. *)
Theorem exit_precedes_every_request (w : world) (code : Z) :
  fst (run w) = Exited code ->
  code = 1
  /\ requests_in (trace (snd (run w))) = []
  /\ exists line,
       hd_error (trace (snd (run w))) = Some (EPrint line)
       /\ In line exit_diagnostics.
Proof.
  destruct (run w) as [o s] eqn:Hrun. cbn [fst snd]. intros ->.
  exact (run_exited w code s Hrun).
Qed.

(** X7, witness: the run without the token of the collaboration endpoint. *)
Lemma tokenless_run_posts_nothing :
  requests_in (trace (snd (run tokenless_world))) = [].
Proof.
  apply (exit_precedes_every_request tokenless_world 1).
  reflexivity.
Defined.

(** *** The requests of a run, counted *)

(** With its key, [call_openai] posts exactly one request, however the
    call ends. *)
Lemma posts_call_openai (w : world) (system_prompt user_prompt : string) (s : state) :
  truthy (OPENAI_API_KEY w) = true ->
  posts (snd (call_openai w system_prompt user_prompt s)) = S (posts s).
Proof.
  intros Hkey.
  destruct (requests_post w (posts s)) as [r|msg resp] eqn:Ho.
  - destruct (http_error_msg r) as [msg|] eqn:Hstatus.
    + rewrite (call_openai_failed w _ _ msg s Hkey); [reflexivity|].
      rewrite Ho. now constructor.
    + destruct (body r) as [document|msg] eqn:Hbody.
      * now rewrite (call_openai_answered w _ _ r document s Hkey Ho Hstatus Hbody).
      * rewrite (call_openai_failed w _ _ msg s Hkey); [reflexivity|].
        rewrite Ho. now constructor.
  - rewrite (call_openai_failed w _ _ msg s Hkey); [reflexivity|].
    rewrite Ho. constructor.
Qed.

(** What [suggest] returns opens with the header of its fields, and it has
    posted one request if the key is set, none otherwise. *)
Lemma suggest_returned (w : world) (path start_line end_line message : value)
    (suggestion : string) (s s' : state) :
  suggest w path start_line end_line message s = (Returned suggestion, s') ->
  starts_with suggestion (suggestion_header w path start_line end_line ++ nl ++ nl)
  /\ posts s' = if truthy (OPENAI_API_KEY w) then S (posts s) else posts s.
Proof.
  unfold suggest. unfold bind at 1.
  pose proof (get_code_snippet_state w path start_line end_line s) as Hstate.
  destruct (get_code_snippet w path start_line end_line s) as [[snippet|e|c] s1];
    cbn [snd] in Hstate; subst s1; try discriminate.
  unfold bind at 1.
  match goal with |- context [call_openai w ?sp ?up s] =>
    pose proof (posts_call_openai w sp up s) as Hposts;
    pose proof (call_openai_no_key w sp up s) as Hnokey;
    destruct (call_openai w sp up s) as [[reply|e|c] s2] end;
    try discriminate.
  match goal with |- ret ?x _ = _ -> _ => set (full := x) end.
  unfold ret. intros H.
  assert (Hfull : suggestion = full) by congruence.
  assert (Hstate : s' = s2) by congruence.
  subst suggestion s' full. cbn [snd] in *. split.
  - exists (py_str w reply). now rewrite !append_assoc.
  - destruct (truthy (OPENAI_API_KEY w)).
    + now apply Hposts.
    + specialize (Hnokey eq_refl).
      assert (Hs2 : s2 = having_printed s "Error: OPENAI_API_KEY not set.")
        by congruence.
      now rewrite Hs2.
Qed.

Lemma for_findings_returned (w : world) (findings : list value)
    (ai_fixes returned : list string) (s s' : state) :
  for_findings w findings ai_fixes s = (Returned returned, s') ->
  (exists fixes,
     returned = (ai_fixes ++ fixes)%list
     /\ Forall2 (headed_by w) findings fixes)
  /\ posts s' = if truthy (OPENAI_API_KEY w)
                then (posts s + List.length findings)%nat else posts s.
Proof.
  revert ai_fixes s.
  induction findings as [|finding rest IH]; intros ai_fixes s.
  - cbn. intros H; inversion H; subst. split.
    + exists []. now rewrite app_nil_r.
    + destruct (truthy (OPENAI_API_KEY w)); lia.
  - cbn [for_findings]. unfold bind at 1. rewrite get_ai_fix_eq.
    destruct (finding_fields finding) as [[[[path a] b] message]|e] eqn:Hfields;
      [|discriminate].
    destruct (suggest w path a b message s) as [[suggestion|e|c] s1] eqn:Hs;
      try discriminate.
    destruct (suggest_returned _ _ _ _ _ _ _ _ Hs) as [Hhead Hp1].
    intros H. destruct (IH _ _ H) as [(fixes & -> & Hfor) Hp2]. split.
    + exists (suggestion :: fixes). rewrite <- app_assoc. split; [reflexivity|].
      constructor; [|exact Hfor]. now exists path, a, b, message.
    + rewrite Hp2, Hp1. destruct (truthy (OPENAI_API_KEY w)); cbn [List.length]; lia.
Qed.

Lemma get_ai_fixes_returned (w : world) (entries : list (string * value))
    (findings : list value) (fixes : list string) (s s' : state) :
  lookup "results" entries = Some (VList findings) ->
  get_ai_fixes w (VDict entries) s = (Returned fixes, s') ->
  Forall2 (headed_by w) findings fixes
  /\ posts s' = if truthy (OPENAI_API_KEY w)
                then (posts s + List.length findings)%nat else posts s.
Proof.
  intros Hresults. rewrite get_ai_fixes_eq, Hresults. cbn [py_len]. cbn zeta.
  destruct findings as [|finding rest].
  - cbn. intros H; inversion H; subst. split; [constructor|].
    destruct (truthy (OPENAI_API_KEY w)); cbn; lia.
  - cbn [truthy isinstance_list negb orb items_of]. intros H.
    destruct (for_findings_returned _ _ _ _ _ _ H) as [(fixes' & -> & Hfor) Hp].
    split; [exact Hfor | exact Hp].
Qed.

(** X8: whenever the Fix Generator returns on a [results] list, it returns
    exactly one suggestion per finding, in the order of the findings, each
    opening with the header made of the fields read from its finding; no
    finding is skipped, merged or reordered, whatever the types of the
    fields and however the requests were answered. *)
Theorem returned_suggestions_match_findings (w : world)
    (entries : list (string * value)) (findings : list value)
    (fixes : list string) (s : state) :
  lookup "results" entries = Some (VList findings) ->
  fst (get_ai_fixes w (VDict entries) s) = Returned fixes ->
  List.length fixes = List.length findings
  /\ Forall2 (headed_by w) findings fixes.
Proof.
  intros Hresults Hret.
  destruct (get_ai_fixes w (VDict entries) s) as [o s'] eqn:Hfix.
  cbn [fst] in Hret; subst o.
  destruct (get_ai_fixes_returned _ _ _ _ _ _ Hresults Hfix) as [Hfor _].
  split; [symmetry; exact (Forall2_length Hfor) | exact Hfor].
Qed.

(** X8, witness: two findings while the service cannot be reached. *)
Lemma offline_suggestions_match :
  List.length
    ["**File: `a.py` (Lines 3-4)**" ++ nl ++ nl
     ++ "Error connecting to AI: Connection refused";
     "**File: `b.py` (Lines 1-2)**" ++ nl ++ nl
     ++ "Error connecting to AI: Connection refused"]
  = List.length [finding_at "a.py" 3 4 "hardcoded secret";
                 finding_at "b.py" 1 2 "dangerous call"]
  /\ Forall2 (headed_by offline_world)
       [finding_at "a.py" 3 4 "hardcoded secret";
        finding_at "b.py" 1 2 "dangerous call"]
       ["**File: `a.py` (Lines 3-4)**" ++ nl ++ nl
        ++ "Error connecting to AI: Connection refused";
        "**File: `b.py` (Lines 1-2)**" ++ nl ++ nl
        ++ "Error connecting to AI: Connection refused"].
Proof.
  apply (returned_suggestions_match_findings offline_world
           [("version", VStr "1.90.0");
            ("results", VList [finding_at "a.py" 3 4 "hardcoded secret";
                               finding_at "b.py" 1 2 "dangerous call"])]
           _ _ initial).
  - reflexivity.
  - reflexivity.
Defined.

(** *** Completed runs *)

(** What [post_to_pr] adds to the trace: its request, then the lines that
    tell how the delivery went. *)
Lemma post_to_pr_state (w : world) (comment_body : string) (s : state) :
  trace (snd (post_to_pr w comment_body s))
  = (map EPrint (delivery_lines (requests_post w (posts s)))
     ++ github_request w comment_body :: trace s)%list
  /\ posts (snd (post_to_pr w comment_body s)) = S (posts s).
Proof.
  unfold delivery_lines, github_request, post_to_pr, try_except, bind, post,
    raise_for_status, response_ok, lift, ret, print.
  destruct (requests_post w (posts s)) as [r|msg [r|]];
    try (destruct (http_error_msg r) eqn:Hstatus; try rewrite Hstatus);
    cbn; split; reflexivity.
Qed.

(** A run that returns had its configuration, a diff and a findings
    document, and was the review of them. *)
Lemma run_returned_inv (w : world) :
  fst (run w) = Returned tt ->
  exists diff scanner_results,
    configured w
    /\ subprocess_run w (diff_command w) = Ok diff /\ diff <> ""
    /\ open_json_load w SCANNER_RESULTS_FILE = Ok scanner_results
    /\ truthy scanner_results = true.
Proof.
  destruct (configured_dec w) as [Hcfg|Hcfg];
    [|rewrite (run_unconfigured w Hcfg); discriminate].
  unfold run. rewrite main_review.
  rewrite (proj1 (configured_iff w) Hcfg). cbn [negb].
  unfold bind at 1. rewrite get_pr_diff_eq.
  destruct (subprocess_run w (diff_command w)) as [diff|e];
    [|destruct e; discriminate].
  cbn [truthy]. destruct (String.eqb_spec diff "") as [->|Hne]; [discriminate|].
  cbn [negb]. unfold bind at 1. rewrite load_scanner_results_eq.
  destruct (open_json_load w SCANNER_RESULTS_FILE) as [document|e];
    [|destruct e; discriminate].
  destruct (truthy document) eqn:Htruthy; [|discriminate].
  intros _. now exists diff, document.
Qed.

(** A review that returns had a summary and suggestions, printed the report
    made of them, and ended with the delivery of that report. *)
Lemma review_returned_inv (w : world) (diff scanner_results : value) (s : state) :
  fst (review w diff scanner_results s) = Returned tt ->
  exists summary fixes s1 s2,
    get_ai_summary w diff s = (Returned summary, s1)
    /\ get_ai_fixes w scanner_results s1 = (Returned fixes, s2)
    /\ review w diff scanner_results s
       = post_to_pr w (format_final_comment w summary fixes)
           (having_reported s2 (format_final_comment w summary fixes)).
Proof.
  unfold review, bind.
  destruct (get_ai_summary w diff s) as [[summary|e|c] s1] eqn:Hsum;
    try discriminate.
  destruct (get_ai_fixes w scanner_results s1) as [[fixes|e|c] s2] eqn:Hfix;
    try discriminate.
  intros _. exists summary, fixes, s1, s2.
  split; [reflexivity|]. split; [exact Hfix | reflexivity].
Qed.




(** X10: a run that completes on a findings document whose [results] is a
    list has posted one request for the summary, one request per finding and
    one comment, and nothing else: the number of its requests is the number
    of findings plus two. *)
Theorem completed_run_request_count (w : world) (entries : list (string * value))
    (findings : list value) :
  fst (run w) = Returned tt ->
  open_json_load w SCANNER_RESULTS_FILE = Ok (VDict entries) ->
  lookup "results" entries = Some (VList findings) ->
  List.length (requests_in (trace (snd (run w))))
  = (List.length findings + 2)%nat.
Proof.
  intros Hret Hload Hresults. rewrite <- posts_count_requests.
  destruct (run_returned_inv w Hret)
    as (diff & document & Hcfg & Hdiff & Hne & Hload' & Htruthy).
  assert (document = VDict entries) by congruence. subst document.
  assert (Hkey : truthy (OPENAI_API_KEY w) = true).
  { apply truthy_environ_get, Hcfg. cbn; auto. }
  rewrite (run_is_review w diff (VDict entries)) in * by assumption.
  destruct (review_returned_inv w _ _ _ Hret)
    as (summary & fixes & s1 & s2 & Hsum & Hfix & ->).
  destruct (post_to_pr_state w (format_final_comment w summary fixes)
              (having_reported s2 (format_final_comment w summary fixes)))
    as [_ ->].
  destruct (get_ai_fixes_returned _ _ _ _ _ _ Hresults Hfix) as [_ Hp2].
  rewrite Hkey in Hp2. cbn [having_reported having_printed posts]. rewrite Hp2.
  assert (Hp1 : posts s1 = 1%nat).
  { unfold get_ai_summary, bind at 1, print in Hsum.
    match type of Hsum with call_openai w ?sp ?up ?s0 = _ =>
      pose proof (posts_call_openai w sp up s0 Hkey) as Hp end.
    rewrite Hsum in Hp. exact Hp. }
  lia.
Qed.

(** X10, witness: one finding, three requests. *)
Lemma sample_run_request_count :
  List.length (requests_in (trace (snd (run scanned_world)))) = 3%nat.
Proof.
  apply (completed_run_request_count scanned_world
           [("version", VStr "1.90.0");
            ("results", VList [finding_at "a.py" 3 4 "hardcoded secret"])]
           [finding_at "a.py" 3 4 "hardcoded secret"]).
  - reflexivity.
  - reflexivity.
  - reflexivity.
Defined.

Lemma starts_with_contains (s p : string) : starts_with s p -> contains s p.
Proof. intros [rest ->]. now exists "", rest. Qed.

Lemma contains_trans (a b c : string) : contains a b -> contains b c -> contains a c.
Proof.
  intros (before & after & ->) (before' & after' & ->).
  exists (before ++ before'), (after' ++ after). now rewrite !append_assoc.
Qed.

(** A report holds each of its suggestions. *)
Lemma report_contains_suggestion (w : world) (summary : value) (fixes : list string)
    (suggestion : string) :
  In suggestion fixes -> contains (format_final_comment w summary fixes) suggestion.
Proof.
  intros Hin. rewrite format_final_comment_eq.
  destruct fixes as [|first rest]; [destruct Hin|].
  rewrite join_separated. do 7 apply contains_after.
  now apply separated_contains_part.
Qed.

Lemma Forall2_In_left {A B : Type} (R : A -> B -> Prop) (l : list A) (l' : list B)
    (x : A) :
  Forall2 R l l' -> In x l -> exists y, In y l' /\ R x y.
Proof.
  induction 1 as [|a b l l' Hab Hrest IH]; intros Hin; [destruct Hin|].
  destruct Hin as [->|Hin].
  - exists b. split; [now left | exact Hab].
  - destruct (IH Hin) as (y & Hy & Hr). exists y. split; [now right | exact Hr].
Qed.

(** X11: the comment of a run that completes names every finding of the
    [results] list: for each finding it holds the header made of the path and
    the line numbers read from that finding. *)
Theorem completed_report_names_every_finding (w : world)
    (entries : list (string * value)) (findings : list value) :
  fst (run w) = Returned tt ->
  open_json_load w SCANNER_RESULTS_FILE = Ok (VDict entries) ->
  lookup "results" entries = Some (VList findings) ->
  exists report,
    comment_attempted w (snd (run w)) report
    /\ printed (snd (run w)) report
    /\ forall finding,
         In finding findings ->
         exists path start_line end_line message,
           finding_fields finding = Ok (path, start_line, end_line, message)
           /\ contains report (suggestion_header w path start_line end_line).
Proof.
  intros Hret Hload Hresults.
  destruct (run_returned_inv w Hret)
    as (diff & document & Hcfg & Hdiff & Hne & Hload' & Htruthy).
  assert (document = VDict entries) by congruence. subst document.
  rewrite (run_is_review w diff (VDict entries)) in * by assumption.
  destruct (review_returned_inv w _ _ _ Hret)
    as (summary & fixes & s1 & s2 & Hsum & Hfix & _).
  assert (Hsum' : fst (get_ai_summary w (VStr diff) initial) = Returned summary)
    by now rewrite Hsum.
  assert (Hfix' : fst (get_ai_fixes w (VDict entries)
                         (snd (get_ai_summary w (VStr diff) initial)))
                  = Returned fixes) by now rewrite Hsum; cbn [snd]; rewrite Hfix.
  destruct (review_reports w _ _ _ _ _ Hsum' Hfix') as (_ & Hatt & Hpr).
  exists (format_final_comment w summary fixes).
  split; [exact Hatt|]. split; [exact Hpr|].
  intros finding Hin.
  destruct (get_ai_fixes_returned _ _ _ _ _ _ Hresults Hfix) as [Hfor _].
  destruct (Forall2_In_left _ _ _ _ Hfor Hin)
    as (suggestion & Hs & path & a & b & message & Hfields & Hstart).
  exists path, a, b, message. split; [exact Hfields|].
  apply contains_trans with (b := suggestion).
  - now apply report_contains_suggestion.
  - apply contains_trans
      with (b := suggestion_header w path a b ++ nl ++ nl).
    + now apply starts_with_contains.
    + apply contains_before, contains_refl.
Qed.

(** X11, witness: the run on the scan of [a.py]. *)
Lemma sample_report_names_its_finding :
  exists report,
    comment_attempted scanned_world (snd (run scanned_world)) report
    /\ printed (snd (run scanned_world)) report
    /\ forall finding,
         In finding [finding_at "a.py" 3 4 "hardcoded secret"] ->
         exists path start_line end_line message,
           finding_fields finding = Ok (path, start_line, end_line, message)
           /\ contains report
                (suggestion_header scanned_world path start_line end_line).
Proof.
  apply (completed_report_names_every_finding scanned_world
           [("version", VStr "1.90.0");
            ("results", VList [finding_at "a.py" 3 4 "hardcoded secret"])]).
  - reflexivity.
  - reflexivity.
  - reflexivity.
Defined.

(** X12: when the request for one finding fails as a [RequestException],
    the suggestion of that finding is its header followed by the text
    [Error connecting to AI: <message>], and the loop goes on with the next
    finding: the failure of one item does not end the batch. *)
Theorem failed_fix_is_embedded (w : world) (finding : value) (path : string)
    (start_line end_line : Z) (message : value) (msg : string) (s : state) :
  truthy (OPENAI_API_KEY w) = true ->
  has_fields finding path start_line end_line message ->
  snippet_available w path ->
  request_fails (requests_post w (posts s)) msg ->
  let suggestion :=
    suggestion_header w (VStr path) (VInt start_line) (VInt end_line)
    ++ nl ++ nl ++ "Error connecting to AI: " ++ msg in
  fst (get_ai_fix w finding s) = Returned suggestion
  /\ forall rest ai_fixes,
       for_findings w (finding :: rest) ai_fixes s
       = for_findings w rest (ai_fixes ++ [suggestion])
           (snd (get_ai_fix w finding s)).
Proof.
  intros Hkey Hfields Hfile Hfail suggestion.
  assert (Hfix : fst (get_ai_fix w finding s) = Returned suggestion).
  { rewrite get_ai_fix_eq, Hfields. unfold suggest. unfold bind at 1.
    assert (Hsnip : exists text,
               get_code_snippet w (VStr path) (VInt start_line) (VInt end_line) s
               = (Returned (VStr text), s)).
    { destruct Hfile as [[lines Hopen]|Hopen].
      - eexists. now apply get_code_snippet_readable with (lines := lines).
      - eexists. now rewrite (get_code_snippet_unopened w (VStr path) _ _
                                FileNotFoundError). }
    destruct Hsnip as [text ->]. unfold bind at 1.
    match goal with |- context [call_openai w ?sp ?up s] =>
      rewrite (call_openai_failed w sp up msg s Hkey Hfail) end.
    reflexivity. }
  split; [exact Hfix|]. intros rest ai_fixes.
  cbn [for_findings]. unfold bind at 1.
  destruct (get_ai_fix w finding s) as [o s1]. cbn [fst snd] in *. now subst o.
Qed.

(** X12, witness: the connection is refused. *)
Lemma offline_fix_is_embedded :
  fst (get_ai_fix offline_world (finding_at "b.py" 1 2 "dangerous call") initial)
  = Returned ("**File: `b.py` (Lines 1-2)**" ++ nl ++ nl
              ++ "Error connecting to AI: Connection refused").
Proof.
  apply (proj1 (failed_fix_is_embedded offline_world
                  (finding_at "b.py" 1 2 "dangerous call") "b.py" 1 2
                  (VStr "dangerous call") "Connection refused" initial
                  eq_refl eq_refl (or_intror eq_refl)
                  (network_error "Connection refused" None))).
Defined.

(** X13: [post_to_pr] posts exactly one request and never a second one, and
    it announces [Successfully posted comment to PR.] exactly when a
    response arrived whose status is neither 4xx nor 5xx. *)
Theorem delivery_is_announced (w : world) (comment_body : string) (s : state) :
  posts (snd (post_to_pr w comment_body s)) = S (posts s)
  /\ (hd_error (trace (snd (post_to_pr w comment_body s)))
      = Some (EPrint "Successfully posted comment to PR.")
      <-> exists r, requests_post w (posts s) = Responded r
                    /\ http_error_msg r = None).
Proof.
  destruct (post_to_pr_state w comment_body s) as [Htrace Hposts].
  split; [exact Hposts|]. rewrite Htrace. unfold delivery_lines.
  destruct (requests_post w (posts s)) as [r|msg [r|]].
  - destruct (http_error_msg r) as [msg|] eqn:Hstatus; cbn; split.
    + discriminate.
    + intros (r' & Hr & Hnone). congruence.
    + intros _. now exists r.
    + reflexivity.
  - destruct (response_ok r); cbn; split; try discriminate;
      intros (r' & Hr & _); discriminate.
  - cbn; split; [discriminate | intros (r' & Hr & _); discriminate].
Qed.

(** *** More on snippets *)

Lemma join_empty_fold (parts : list string) :
  join "" parts = fold_right String.append "" parts.
Proof.
  unfold join. induction parts as [|first [|second rest] IH].
  - reflexivity.
  - cbn. now rewrite append_empty_r.
  - change (String.concat "" (first :: second :: rest))
      with (first ++ String.concat "" (second :: rest)).
    now rewrite IH.
Qed.

Lemma join_empty_app (front back : list string) :
  join "" (front ++ back) = join "" front ++ join "" back.
Proof.
  rewrite !join_empty_fold. induction front as [|part front IH]; cbn.
  - reflexivity.
  - now rewrite IH, append_assoc.
Qed.

Lemma firstn_split {A : Type} (n m : nat) (items : list A) :
  firstn (n + m) items = (firstn n items ++ firstn m (skipn n items))%list.
Proof.
  revert items; induction n as [|n IH]; intros [|item items]; cbn;
    try reflexivity.
  - now rewrite firstn_nil.
  - now rewrite IH.
Qed.

(** Two slices that meet make one slice. *)
Lemma py_slice_app {A : Type} (items : list A) (x y z : Z) :
  0 <= x <= y -> y <= z ->
  (py_slice items x y ++ py_slice items y z)%list = py_slice items x z.
Proof.
  intros Hxy Hyz. unfold py_slice, slice_bound.
  destruct (Z.ltb_spec x 0); [exfalso; lia|].
  destruct (Z.ltb_spec y 0); [exfalso; lia|].
  destruct (Z.ltb_spec z 0); [exfalso; lia|].
  set (len := Z.of_nat (List.length items)).
  replace (Z.to_nat (Z.min z len - Z.min x len))
    with (Z.to_nat (Z.min y len - Z.min x len)
          + Z.to_nat (Z.min z len - Z.min y len))%nat by lia.
  rewrite firstn_split, skipn_skipn.
  replace (Z.to_nat (Z.min y len - Z.min x len) + Z.to_nat (Z.min x len))%nat
    with (Z.to_nat (Z.min y len)) by lia.
  reflexivity.
Qed.

Lemma py_slice_all {A : Type} (items : list A) :
  py_slice items 0 (Z.of_nat (List.length items)) = items.
Proof.
  unfold py_slice, slice_bound.
  destruct (Z.ltb_spec (Z.of_nat (List.length items)) 0); [exfalso; lia|].
  cbn [Z.ltb Z.compare]. rewrite Z.min_id, Z.min_l by lia.
  rewrite Z.sub_0_r, Nat2Z.id. cbn [Z.to_nat skipn]. apply firstn_all.
Qed.

Lemma py_min_int (n m : Z) : py_min n (VInt m) = Ok (Z.min n m).
Proof. cbn. destruct (Z.ltb_spec m n); f_equal; lia. Qed.

(** X14: on a readable file, a range that starts at or before line 1 and
    ends at or after the last line yields the whole content of the file. *)
Theorem snippet_of_whole_file (w : world) (path : string) (lines : list string)
    (start_line end_line : Z) (s : state) :
  open_readlines w path = Ok lines ->
  start_line <= 1 -> Z.of_nat (List.length lines) <= end_line ->
  get_code_snippet w (VStr path) (VInt start_line) (VInt end_line) s
  = (Returned (VStr (join "" lines)), s).
Proof.
  intros Hopen Hstart Hend. rewrite (get_code_snippet_readable _ _ _ _ _ _ Hopen).
  rewrite (Z.max_l 0) by lia.
  destruct (Z.ltb_spec end_line (Z.of_nat (List.length lines))); [exfalso; lia|].
  now rewrite py_slice_all.
Qed.

(** X14, witness: lines 0 to 80 of the five lines of [a.py]. *)
Lemma whole_sample_file :
  get_code_snippet sample_world (VStr "a.py") (VInt 0) (VInt 80) initial
  = (Returned (VStr (join "" a_py)), initial).
Proof.
  apply (snippet_of_whole_file sample_world "a.py" a_py 0 80 initial).
  - reflexivity.
  - discriminate.
  - discriminate.
Defined.

(** X15: on a readable file, the snippets of two ranges that follow each
    other, from a to b and from b + 1 to c, make up the snippet of the range
    from a to c when put end to end: no line is lost or repeated at the
    seam. *)
Theorem adjacent_snippets_concatenate (w : world) (path : string)
    (lines : list string) (a b c : Z) (s : state) :
  open_readlines w path = Ok lines ->
  1 <= a -> a - 1 <= b -> b <= c ->
  exists front back,
    get_code_snippet w (VStr path) (VInt a) (VInt b) s
    = (Returned (VStr front), s)
    /\ get_code_snippet w (VStr path) (VInt (b + 1)) (VInt c) s
       = (Returned (VStr back), s)
    /\ get_code_snippet w (VStr path) (VInt a) (VInt c) s
       = (Returned (VStr (front ++ back)), s).
Proof.
  intros Hopen Ha Hb Hc.
  rewrite !(get_code_snippet_readable _ _ _ _ _ _ Hopen).
  eexists _, _. split; [reflexivity|]. split; [reflexivity|].
  rewrite <- join_empty_app. do 3 f_equal.
  set (len := Z.of_nat (List.length lines)).
  assert (Hmin : forall e, 0 <= e ->
            py_slice lines (Z.max 0 (a - 1)) (if e <? len then e else len)
            = py_slice lines (a - 1) e).
  { intros e He. rewrite (Z.max_r 0) by lia.
    unfold py_slice, slice_bound. fold len.
    destruct (Z.ltb_spec e len).
    - reflexivity.
    - destruct (Z.ltb_spec len 0); [exfalso; lia|].
      destruct (Z.ltb_spec e 0); [exfalso; lia|].
      now rewrite Z.min_id, (Z.min_r e) by lia. }
  rewrite !Hmin by lia.
  replace (Z.max 0 (b + 1 - 1)) with b by lia.
  assert (Hback : py_slice lines b (if c <? len then c else len)
                  = py_slice lines b c).
  { unfold py_slice, slice_bound. fold len.
    destruct (Z.ltb_spec c len).
    - reflexivity.
    - destruct (Z.ltb_spec len 0); [exfalso; lia|].
      destruct (Z.ltb_spec c 0); [exfalso; lia|].
      now rewrite Z.min_id, (Z.min_r c) by lia. }
  rewrite Hback. rewrite (py_slice_app lines (a - 1) b c) by lia. reflexivity.
Qed.

(** X15, witness: lines 2 to 3 and 4 to 9 of [a.py]. *)
Lemma sample_snippets_concatenate :
  exists front back,
    get_code_snippet sample_world (VStr "a.py") (VInt 2) (VInt 3) initial
    = (Returned (VStr front), initial)
    /\ get_code_snippet sample_world (VStr "a.py") (VInt (3 + 1)) (VInt 9) initial
       = (Returned (VStr back), initial)
    /\ get_code_snippet sample_world (VStr "a.py") (VInt 2) (VInt 9) initial
       = (Returned (VStr (front ++ back)), initial).
Proof.
  apply (adjacent_snippets_concatenate sample_world "a.py" a_py 2 3 9 initial).
  - reflexivity.
  - discriminate.
  - discriminate.
  - discriminate.
Defined.

(** X16: on a file that opens, a line number that is not a number (a
    string, [null], a list, an object) raises [TypeError]: the types of the
    fields of a finding are not checked before they are used. *)
Theorem ill_typed_line_numbers_raise (w : world) (path : string)
    (lines : list string) (start_line end_line : value) (s : state) :
  open_readlines w path = Ok lines ->
  not_a_number start_line || not_a_number end_line = true ->
  get_code_snippet w (VStr path) start_line end_line s = (Raised TypeError, s).
Proof.
  intros Hopen Htypes.
  unfold get_code_snippet, try_except, bind, lift, ret; cbn [py_open_readlines].
  rewrite Hopen.
  destruct start_line; cbn in Htypes |- *; try reflexivity;
    destruct end_line; cbn in Htypes |- *; try reflexivity; discriminate.
Qed.

(** X16, witness: a start line given as a string. *)
Lemma quoted_line_number_raises :
  get_code_snippet sample_world (VStr "a.py") (VStr "3") (VInt 4) initial
  = (Raised TypeError, initial).
Proof.
  apply (ill_typed_line_numbers_raise sample_world "a.py" a_py).
  - reflexivity.
  - reflexivity.
Defined.

(** *** Failures while acquiring the inputs *)

(** X17: with the configuration present, a failed diff command and a
    missing findings file each end the run with status 1 after two lines:
    the diagnostic of the helper, then the diagnostic of [main]. *)
Theorem acquisition_failures_exit (w : world) :
  configured w ->
  (forall msg,
     subprocess_run w (diff_command w) = Raise (CalledProcessError msg) ->
     run w = (Exited 1,
              having_printed
                (having_printed initial ("Error getting git diff: " ++ msg))
                "Could not get PR diff. Exiting."))
  /\ (forall diff,
        subprocess_run w (diff_command w) = Ok diff -> diff <> "" ->
        open_json_load w SCANNER_RESULTS_FILE = Raise FileNotFoundError ->
        run w = (Exited 1,
                 having_printed
                   (having_printed initial "Scanner results file not found.")
                   "Could not load scanner results. Exiting.")).
Proof.
  intros Hcfg. apply configured_iff in Hcfg. split.
  - intros msg Hdiff. unfold run. rewrite main_review, Hcfg. cbn [negb].
    unfold bind at 1. now rewrite get_pr_diff_eq, Hdiff.
  - intros diff Hdiff Hne Hload. unfold run. rewrite main_review, Hcfg.
    cbn [negb]. unfold bind at 1. rewrite get_pr_diff_eq, Hdiff. cbn [truthy].
    destruct (String.eqb_spec diff "") as [->|_]; [now destruct Hne|].
    cbn [negb]. unfold bind at 1. now rewrite load_scanner_results_eq, Hload.
Qed.

(** X17, witness: there is no findings file. *)
Lemma missing_scan_exits :
  run scanless_world
  = (Exited 1,
     having_printed (having_printed initial "Scanner results file not found.")
       "Could not load scanner results. Exiting.").
Proof.
  apply (proj2 (acquisition_failures_exit scanless_world
                  (proj2 (configured_iff scanless_world) eq_refl))
           "+print('hi')").
  - reflexivity.
  - discriminate.
  - reflexivity.
Defined.

(** X18: with the configuration present, an exception of the diff command
    other than [CalledProcessError] (the command cannot be started), and an
    exception of the loading of the findings file other than
    [FileNotFoundError] and [JSONDecodeError] (the file cannot be read), are
    caught nowhere: the run ends with that exception, having printed nothing
    and posted nothing. *)
Theorem uncaught_acquisition_errors (w : world) :
  configured w ->
  (forall e,
     subprocess_run w (diff_command w) = Raise e ->
     (forall msg, e <> CalledProcessError msg) ->
     run w = (Raised e, initial))
  /\ (forall diff e,
        subprocess_run w (diff_command w) = Ok diff -> diff <> "" ->
        open_json_load w SCANNER_RESULTS_FILE = Raise e ->
        e <> FileNotFoundError -> e <> JSONDecodeError ->
        run w = (Raised e, initial)).
Proof.
  intros Hcfg. apply configured_iff in Hcfg. split.
  - intros e Hdiff Hother. unfold run. rewrite main_review, Hcfg. cbn [negb].
    unfold bind at 1. rewrite get_pr_diff_eq, Hdiff.
    destruct e; try reflexivity. now destruct (Hother msg).
  - intros diff e Hdiff Hne Hload Hnf Hjd. unfold run.
    rewrite main_review, Hcfg. cbn [negb].
    unfold bind at 1. rewrite get_pr_diff_eq, Hdiff. cbn [truthy].
    destruct (String.eqb_spec diff "") as [->|_]; [now destruct Hne|].
    cbn [negb]. unfold bind at 1. rewrite load_scanner_results_eq, Hload.
    destruct e; try reflexivity; [now destruct Hnf | now destruct Hjd].
Qed.

(** X18, witness: [git] is not installed. *)
Lemma missing_git_is_uncaught :
  run gitless_world = (Raised (OtherError "FileNotFoundError"), initial).
Proof.
  apply (proj1 (uncaught_acquisition_errors gitless_world
                  (proj2 (configured_iff gitless_world) eq_refl))).
  - reflexivity.
  - discriminate.
Defined.

(** *** The first request of a run *)

(** With its key, [call_openai] adds its request to the trace, and at most
    lines after it. *)
Lemma trace_call_openai (w : world) (system_prompt user_prompt : string) (s : state) :
  truthy (OPENAI_API_KEY w) = true ->
  exists later,
    trace (snd (call_openai w system_prompt user_prompt s))
    = (later ++ openai_request w system_prompt user_prompt :: trace s)%list.
Proof.
  intros Hkey.
  destruct (requests_post w (posts s)) as [r|msg resp] eqn:Ho.
  - destruct (http_error_msg r) as [msg|] eqn:Hstatus.
    + rewrite (call_openai_failed w _ _ msg s Hkey);
        [now eexists [_] | rewrite Ho; now constructor].
    + destruct (body r) as [document|msg] eqn:Hbody.
      * rewrite (call_openai_answered w _ _ r document s Hkey Ho Hstatus Hbody).
        now exists [].
      * rewrite (call_openai_failed w _ _ msg s Hkey);
          [now eexists [_] | rewrite Ho; now constructor].
  - rewrite (call_openai_failed w _ _ msg s Hkey);
      [now eexists [_] | rewrite Ho; constructor].
Qed.

(** X19: in every run that has its configuration, a diff that is not
    empty and a findings document that is truthy, the first request is the
    one for the summary: it goes to the text-generation service and its user
    message is the text [Git Diff:], a blank line and the whole diff,
    unabridged, whatever the run does afterwards. *)
Theorem first_request_carries_the_diff (w : world) (diff : string)
    (scanner_results : value) :
  configured w ->
  subprocess_run w (diff_command w) = Ok diff -> diff <> "" ->
  open_json_load w SCANNER_RESULTS_FILE = Ok scanner_results ->
  truthy scanner_results = true ->
  exists later,
    trace (snd (run w))
    = (later
       ++ [openai_request w summary_system_prompt ("Git Diff:" ++ nl ++ nl ++ diff);
           EPrint "Getting AI summary for PR diff..."])%list.
Proof.
  intros Hcfg Hdiff Hne Hload Htruthy.
  assert (Hkey : truthy (OPENAI_API_KEY w) = true).
  { apply truthy_environ_get, Hcfg. cbn; auto. }
  rewrite (run_is_review w diff scanner_results) by assumption.
  set (first_events :=
         [openai_request w summary_system_prompt ("Git Diff:" ++ nl ++ nl ++ diff);
          EPrint "Getting AI summary for PR diff..."]).
  set (I := fun s : state => exists later, trace s = (later ++ first_events)%list).
  assert (HI : stable w I).
  { repeat split; intros; destruct H as [later H]; unfold I; cbn; rewrite H;
      now eexists (_ :: later). }
  change (I (snd (review w (VStr diff) scanner_results initial))).
  assert (H1 : I (snd (get_ai_summary w (VStr diff) initial))).
  { unfold get_ai_summary, bind at 1, print.
    match goal with |- I (snd (call_openai w ?sp ?up ?s0)) =>
      destruct (trace_call_openai w sp up s0 Hkey) as [later Hlater] end.
    exists later. exact Hlater. }
  unfold review. unfold bind at 1.
  destruct (get_ai_summary w (VStr diff) initial) as [[ai_summary|e|c] s1];
    cbn [snd] in H1; try exact H1.
  revert H1. generalize s1.
  change (preserves I
            (ai_fixes <- get_ai_fixes w scanner_results ;;
             print (nl ++ "--- Final Comment ---") ;;
             print (format_final_comment w ai_summary ai_fixes) ;;
             print ("---------------------" ++ nl) ;;
             post_to_pr w (format_final_comment w ai_summary ai_fixes))).
  apply preserves_bind; [now apply preserves_get_ai_fixes | intros ai_fixes].
  preserves_steps HI. now apply preserves_post_to_pr.
Qed.

(** X19, witness: the sample run. *)
Lemma sample_first_request :
  exists later,
    trace (snd (run sample_world))
    = (later
       ++ [openai_request sample_world summary_system_prompt
             ("Git Diff:" ++ nl ++ nl ++ "+print('hi')");
           EPrint "Getting AI summary for PR diff..."])%list.
Proof.
  apply (first_request_carries_the_diff sample_world "+print('hi')"
           (VDict [("results", VList [])])).
  - apply configured_iff. reflexivity.
  - reflexivity.
  - discriminate.
  - reflexivity.
  - reflexivity.
Defined.

(** *** The sample application *)

(** X20: the connection string is the same in every environment: the
    built-in password is not empty, so the variable [DB_PASS] is never read
    and cannot replace it. *)
Theorem db_password_ignores_environment (w : world) (env : string -> option string) :
  get_db_connection (with_environ w env) = get_db_connection w
  /\ get_db_connection w = "connecting_with:super-secret-password-123".
Proof. split; reflexivity. Qed.

(** X21: [run_command] hands the string found under [command] in the
    request to the shell as it is, once, with no check of its content, and
    returns [None]; on any other request (no [command], a value that is not
    a string, a string with a NUL, a request that is not an object) it
    raises and the shell has run nothing. *)
Theorem run_command_runs_the_request (sh : string -> Z) (request_data : value)
    (shell : list string) :
  (exists line,
     dict_get request_data "command" VNone = Ok (VStr line)
     /\ has_nul line = false
     /\ run_command sh request_data shell = (Ok VNone, line :: shell))
  \/ (exists e,
        run_command sh request_data shell = (Raise e, shell)
        /\ forall line,
             dict_get request_data "command" VNone = Ok (VStr line) ->
             has_nul line = true).
Proof.
  unfold run_command.
  destruct (dict_get request_data "command" VNone) as [command|e].
  - destruct command as [|b|n|line|items|fields];
      try (right; exists TypeError; split; [reflexivity | discriminate]).
    cbn. destruct (has_nul line) eqn:Hnul.
    + right. eexists. split; [reflexivity|]. intros line' H. congruence.
    + left. now exists line.
  - right. exists e. split; [reflexivity | discriminate].
Qed.
